(** * TradingAgent (agent-client.js): budget-gated paid calls, tiered
      analysis workflows and the spending report.

    The agent is embedded as a state-and-exception monad over a [World]
    that holds the agent object together with what the agent talks to:
    the x402 client (an oracle answering the n-th invocation), the log of
    invocations made, and the wall clock.

    Numbers.  The agent is embedded twice.  The first part takes
    JavaScript numbers as exact rationals ([Q]); it carries the statements
    on control flow, on the ledger and on the report's strings, in which
    the program compares or adds an amount once.  The two places where
    the source divides ([getSpendingReport]) go through [JsNum.div], which
    keeps the non-finite results of a division by zero.  The second part,
    [Double], repeats the agent with binary64 floats and their primitive
    operations, so that the gate, the debit and the sums round as they do
    in the program; it carries the statements that chain several
    additions or comparisons: the budget cap, the signal bands, the
    counter against the endpoint totals, and what the workflows report
    against what they charge.

    Left out: console output of the logger (only its property reads that
    can raise are kept), [discoverServices] and [calculateTotalCost]
    (they do not touch the budget or the ledger; the latter rests on
    [parseFloat]), [main], and the HTTP server with its three fixed
    routes. *)

From Stdlib Require Import QArith Qround Qabs ZArith List String Ascii Bool Lqa Lia.
From Stdlib Require Import DecimalString PrimFloat.
Import ListNotations.

Set Warnings "-inexact-float".

Local Open Scope string_scope.
Local Open Scope Q_scope.
Local Open Scope list_scope.

(* ------------------------------------------------------------------ *)
(** ** JavaScript numbers: comparison, division, [toFixed(1)] *)

Module JsNum.

(** Result of an arithmetic expression that may leave the finite numbers. *)
Inductive num : Type :=
| Fin (q : Q)
| NaN
| PosInf
| NegInf.

(** [x < y] on finite numbers. *)
Definition ltb (x y : Q) : bool := negb (Qle_bool y x).

(** [x >= y] on finite numbers. *)
Definition geb (x y : Q) : bool := Qle_bool y x.

(** [a / b]: 0/0 is NaN, a nonzero number over 0 is an infinity. *)
Definition div (a b : Q) : num :=
  if Qeq_bool b 0 then
    if Qeq_bool a 0 then NaN
    else if ltb 0 a then PosInf else NegInf
  else Fin (a / b).

(** [x * k] for a finite, positive literal [k] (the source multiplies
    by 100 only). *)
Definition scale (x : num) (k : Q) : num :=
  match x with
  | Fin q => Fin (q * k)
  | other => other
  end.

Definition digits (n : Z) : string :=
  NilZero.string_of_uint (N.to_uint (Z.to_N n)).

(** [Number.prototype.toFixed(1)]: the nearest multiple of 1/10, the
    larger one on a tie, printed with one fractional digit; the sign is
    taken off first.  (Magnitudes of 10^21 and more, which JavaScript
    prints in exponent form, do not occur for the percentages formatted
    here and are printed positionally by this definition.) *)
Definition toFixed1 (x : num) : string :=
  match x with
  | NaN => "NaN"
  | PosInf => "Infinity"
  | NegInf => "-Infinity"
  | Fin q =>
      let n := Qfloor (Qabs q * 10 + (1 # 2)) in
      ((if ltb q 0 then "-" else "")
         ++ digits (n / 10) ++ "." ++ digits (n mod 10))%string
  end.

End JsNum.

(** Comparisons against a possibly [undefined] number: [undefined > k]
    and [undefined < k] are false. *)
Definition gt (x : option Q) (k : Q) : bool :=
  match x with Some q => JsNum.ltb k q | None => false end.

Definition lt (x : option Q) (k : Q) : bool :=
  match x with Some q => JsNum.ltb q k | None => false end.

(** [x === s] for a possibly [undefined] string [x]. *)
Definition strict_eq (x : option string) (s : string) : bool :=
  match x with Some y => String.eqb y s | None => false end.

(* ------------------------------------------------------------------ *)
(** ** Service responses *)

Record Signals : Type := mkSignals {
  trend : string;
  strength : Q;
  volatility : Q
}.

(** The [data] member of a response, one shape per service. *)
Inductive Data : Type :=
| Market (price volume : Q) (signals : Signals)
| Sentiment (sentiment : string) (score : Q)
| Prediction (currentPrice predictedPrice change : Q)
| Papers (items : list string).

Record Meta : Type := mkMeta {
  confidence : option Q;
  total : option Z
}.

(** What [executePayment] hands back ([response.data]): an envelope with a
    [data] member and an optional [_meta] member. *)
Record Body : Type := mkBody {
  data : Data;
  _meta : option Meta
}.

(** Property reads on [body.data]; a key the shape does not have reads as
    [undefined] ([None]). *)
Definition data_signals (b : Body) : option Signals :=
  match data b with Market _ _ s => Some s | _ => None end.

Definition data_volume (b : Body) : option Q :=
  match data b with Market _ v _ => Some v | _ => None end.

Definition data_sentiment (b : Body) : option string :=
  match data b with Sentiment s _ => Some s | _ => None end.

Definition data_score (b : Body) : option Q :=
  match data b with Sentiment _ s => Some s | _ => None end.

Definition data_change (b : Body) : option Q :=
  match data b with Prediction _ _ c => Some c | _ => None end.

(** Request payloads sent with POST. *)
Record Features : Type := mkFeatures {
  f_sentiment : option Q;
  f_volume : option Q;
  f_volatility : Q
}.

Inductive Payload : Type :=
| NoData
| TextData (text : string)
| PredictData (symbol timeframe : string) (features : option Features).

(** One invocation of the x402 client. *)
Inductive Request : Type :=
| Get (url : string)
| Post (url : string) (payload : Payload).

(** How the client answers: a response (body, [x-request-id] header if
    any) or a rejection, each after some elapsed milliseconds. *)
Inductive Outcome : Type :=
| Respond (body : Body) (requestId : option string) (elapsed : Z)
| Reject (message : string) (elapsed : Z).

(** Exceptions the agent code can raise. *)
Inductive Exn : Type :=
| InsufficientBudget (remaining : Q)
| TransportError (message : string)
| TypeError (message : string).

(* ------------------------------------------------------------------ *)
(** ** Agent state *)

Inductive Status : Type := success | failed.

Definition Status_eqb (a b : Status) : bool :=
  match a, b with
  | success, success | failed, failed => true
  | _, _ => false
  end.

Module Transaction.
(** An entry of [this.transactions].  [timestamp] is the clock reading
    in milliseconds; [error] is the exception whose message the source
    stores. *)
Record t : Type := mk {
  timestamp : Z;
  endpoint : string;
  amount : Q;
  duration : option Z;
  status : Status;
  requestId : option string;
  error : option Exn
}.
End Transaction.

Record Agent : Type := mkAgent {
  name : string;
  wallet : string;
  baseUrl : string;
  maxDailySpend : Q;
  spendingToday : Q;
  transactions : list Transaction.t
}.

Record World : Type := mkWorld {
  agent : Agent;
  net : nat -> Outcome;
  calls : list Request;
  now : Z
}.

(** [a || b] on an optional string: absent and empty are both falsy. *)
Definition or_string (a : option string) (b : string) : string :=
  match a with
  | Some s => if String.eqb s "" then b else s
  | None => b
  end.

(** [a || b] on an optional number: absent and zero are both falsy. *)
Definition or_number (a : option Q) (b : Q) : Q :=
  match a with
  | Some q => if Qeq_bool q 0 then b else q
  | None => b
  end.

Record Config : Type := mkConfig {
  cfg_name : option string;
  cfg_address : string;
  cfg_baseUrl : option string;
  cfg_maxDailySpend : option Q
}.

(** The constructor.  The wallet address derived from the private key is
    taken from the configuration. *)
Definition TradingAgent (config : Config) : Agent :=
  {| name := or_string (cfg_name config) "TradingAgent-1";
     wallet := cfg_address config;
     baseUrl := or_string (cfg_baseUrl config) "https://nulucre.com";
     maxDailySpend := or_number (cfg_maxDailySpend config) 10.0;
     spendingToday := 0;
     transactions := [] |}.

Definition boot (config : Config) (net : nat -> Outcome) (now : Z) : World :=
  {| agent := TradingAgent config; net := net; calls := []; now := now |}.

(* ------------------------------------------------------------------ *)
(** ** The monad of agent methods *)

Inductive Res (A : Type) : Type :=
| Ok (a : A)
| Throw (e : Exn).
Arguments Ok {A} a.
Arguments Throw {A} e.

Definition M (A : Type) : Type := World -> Res A * World.

Definition ret {A} (a : A) : M A := fun w => (Ok a, w).

Definition throw {A} (e : Exn) : M A := fun w => (Throw e, w).

Definition bind {A B} (m : M A) (k : A -> M B) : M B :=
  fun w =>
    match m w with
    | (Ok a, w') => k a w'
    | (Throw e, w') => (Throw e, w')
    end.

Definition lift {A} (r : Res A) : M A := fun w => (r, w).

Notation "x <- m ;; k" := (bind m (fun x => k))
  (at level 61, m at next level, right associativity).

(** Reading a property of [undefined] raises a TypeError. *)
Definition defined {A} (x : option A) (prop : string) : M A :=
  match x with
  | Some a => ret a
  | None =>
      throw (TypeError
               ("Cannot read properties of undefined (reading '" ++ prop ++ "')")%string)
  end.

(* ------------------------------------------------------------------ *)
(** ** Budget gate and paid calls *)

Definition canAfford (a : Agent) (amount : Q) : bool :=
  let remaining := maxDailySpend a - spendingToday a in
  JsNum.geb remaining amount.

(** One invocation of the client: the oracle answers the invocation whose
    index is the number of invocations made so far; the request is logged
    and the clock advances by the time the call took. *)
Definition served (req : Request) (elapsed : Z) (w : World) : World :=
  {| agent := agent w; net := net w;
     calls := calls w ++ [req]; now := (now w + elapsed)%Z |}.

Definition invoke (req : Request) : M (Body * option string) :=
  fun w =>
    match net w (List.length (calls w)) with
    | Respond body rid dt => (Ok (body, rid), served req dt w)
    | Reject msg dt => (Throw (TransportError msg), served req dt w)
    end.

Definition record (t : Transaction.t) (charge : Q) (w : World) : World :=
  {| agent :=
       {| name := name (agent w);
          wallet := wallet (agent w);
          baseUrl := baseUrl (agent w);
          maxDailySpend := maxDailySpend (agent w);
          spendingToday := spendingToday (agent w) + charge;
          transactions := transactions (agent w) ++ [t] |};
     net := net w; calls := calls w; now := now w |}.

(** The failed branch does not touch [spendingToday] at all. *)
Definition record_failed (t : Transaction.t) (w : World) : World :=
  {| agent :=
       {| name := name (agent w);
          wallet := wallet (agent w);
          baseUrl := baseUrl (agent w);
          maxDailySpend := maxDailySpend (agent w);
          spendingToday := spendingToday (agent w);
          transactions := transactions (agent w) ++ [t] |};
     net := net w; calls := calls w; now := now w |}.

Definition executePayment (endpoint : string) (amount : Q)
    (method : string) (payload : Payload) : M Body :=
  fun w =>
    if negb (canAfford (agent w) amount) then
      (Throw (InsufficientBudget (maxDailySpend (agent w) - spendingToday (agent w))), w)
    else
      let startTime := now w in
      let url := (baseUrl (agent w) ++ endpoint)%string in
      let attempt : M (Body * option string) :=
        if String.eqb method "GET" then invoke (Get url)
        else if String.eqb method "POST" then invoke (Post url payload)
        else throw (TypeError "Cannot read properties of undefined (reading 'headers')") in
      match attempt w with
      | (Ok (body, rid), w1) =>
          let duration := (now w1 - startTime)%Z in
          let transaction :=
            {| Transaction.timestamp := now w1;
               Transaction.endpoint := endpoint;
               Transaction.amount := amount;
               Transaction.duration := Some duration;
               Transaction.status := success;
               Transaction.requestId := rid;
               Transaction.error := None |} in
          (Ok body, record transaction amount w1)
      | (Throw error, w1) =>
          (Throw error,
           record_failed
             {| Transaction.timestamp := now w1;
                Transaction.endpoint := endpoint;
                Transaction.amount := amount;
                Transaction.duration := None;
                Transaction.status := failed;
                Transaction.requestId := None;
                Transaction.error := Some error |} w1)
      end.

(* ------------------------------------------------------------------ *)
(** ** Decisions and workflow results *)

Inductive Decision : Type := BUY | SELL | HOLD | PASS | SKIP | ERROR.

Module Result.
(** The object literals the workflows return; a key a literal does not
    have is [None].  [error] is the caught exception whose message the
    source stores. *)
Record t : Type := mk {
  symbol : option string;
  decision : Decision;
  reason : option string;
  confidence : option Q;
  totalSpent : option Q;
  analysis : option (Body * Body * Body);
  error : option Exn
}.
End Result.

(** [makeDecision(marketData, sentiment, prediction)]; [sentiment] may be
    [null].  The conjunctions short-circuit: [sentiment.data] is read only
    when the two numeric tests before it hold. *)
Definition makeDecision (marketData : Body) (sentiment : option Body)
    (prediction : Body) : Res Decision :=
  let priceChange := data_change prediction in
  match _meta prediction with
  | None => Throw (TypeError "Cannot read properties of undefined (reading 'confidence')")
  | Some meta =>
      let confidence := confidence meta in
      let otherwise :=
        if lt priceChange (-5) && gt confidence 0.7 then Ok SELL else Ok HOLD in
      if gt priceChange 5 && gt confidence 0.7 then
        match sentiment with
        | None => Throw (TypeError "Cannot read properties of null (reading 'data')")
        | Some s =>
            if strict_eq (data_sentiment s) "positive" then Ok BUY else otherwise
        end
      else otherwise
  end.

Definition getMarketNews (symbol : string) : M string :=
  ret (symbol ++ " shows strong momentum. Institutional investors are accumulating. 
    Technical indicators suggest breakout potential. Volume increasing significantly.")%string.

Definition market_intelligence (symbol : string) : string :=
  ("/api/v1/data/market-intelligence?symbol=" ++ symbol)%string.

(** The fall-through return of [analyzeMarketAndDecide]. *)
Definition hold_result (symbol : string) : Result.t :=
  {| Result.symbol := Some symbol;
     Result.decision := HOLD;
     Result.reason := Some "Signal not strong enough for deep analysis";
     Result.confidence := None;
     Result.totalSpent := Some 0.005;
     Result.analysis := None;
     Result.error := None |}.

(** Deep analysis.  The logger calls are kept only for the property reads
    that can raise; the outer try/catch logs and rethrows. *)
Definition analyzeMarketAndDecide (symbol : string) : M Result.t :=
  marketData <- executePayment (market_intelligence symbol) 0.005 "GET" NoData ;;
  (* logger: marketData.data.signals.trend *)
  sig <- defined (data_signals marketData) "trend" ;;
  if JsNum.ltb 0.7 (strength sig) then
    newsText <- getMarketNews symbol ;;
    sentiment <- executePayment "/api/v1/models/sentiment-analysis" 0.02
                   "POST" (TextData newsText) ;;
    if strict_eq (data_sentiment sentiment) "positive"
       && String.eqb (trend sig) "bullish" then
      prediction <- executePayment "/api/v1/models/price-prediction" 0.10 "POST"
                      (PredictData symbol "24h"
                         (Some {| f_sentiment := data_score sentiment;
                                  f_volume := data_volume marketData;
                                  f_volatility := volatility sig |})) ;;
      (* logger: prediction.data.change.toFixed(2), prediction._meta.confidence *)
      _ <- defined (data_change prediction) "toFixed" ;;
      meta <- defined (_meta prediction) "confidence" ;;
      decision <- lift (makeDecision marketData (Some sentiment) prediction) ;;
      ret {| Result.symbol := Some symbol;
             Result.decision := decision;
             Result.reason := None;
             Result.confidence := confidence meta;
             Result.totalSpent := Some (0.005 + 0.02 + 0.10);
             Result.analysis := Some (marketData, sentiment, prediction);
             Result.error := None |}
    else ret (hold_result symbol)
  else ret (hold_result symbol).

(** The body of the [try] block of one iteration of [analyzeBatch], up to
    the value it pushes onto [results]; the budget check that follows the
    push is in [analyzeBatch_loop]. *)
Definition batch_try (symbol : string) : M Result.t :=
  marketData <- executePayment (market_intelligence symbol) 0.005 "GET" NoData ;;
  sig <- defined (data_signals marketData) "strength" ;;
  if JsNum.ltb 0.8 (strength sig) then
    analyzeMarketAndDecide symbol
  else
    ret {| Result.symbol := Some symbol;
           Result.decision := SKIP;
           Result.reason := Some "Weak signals";
           Result.confidence := None;
           Result.totalSpent := Some 0.005;
           Result.analysis := None;
           Result.error := None |}.

Definition error_result (symbol : string) (error : Exn) : Result.t :=
  {| Result.symbol := Some symbol;
     Result.decision := ERROR;
     Result.reason := None;
     Result.confidence := None;
     Result.totalSpent := Some 0;
     Result.analysis := None;
     Result.error := Some error |}.

(** The budget check at the end of the [try] block. *)
Definition approaching_limit (a : Agent) : bool :=
  JsNum.geb (spendingToday a) (maxDailySpend a * 0.9).

(** The [for ... of] loop of [analyzeBatch]: [results] is the array built
    so far.  Nothing is pushed in an iteration before its last statement
    that can raise, so the [catch] block sees [results] as the iteration
    found it. *)
Fixpoint analyzeBatch_loop (symbols : list string) (results : list Result.t)
  : M (list Result.t) :=
  match symbols with
  | [] => ret results
  | symbol :: rest =>
      fun w =>
        match batch_try symbol w with
        | (Ok entry, w') =>
            if approaching_limit (agent w') then (Ok (results ++ [entry]), w')
            else analyzeBatch_loop rest (results ++ [entry]) w'
        | (Throw error, w') =>
            analyzeBatch_loop rest (results ++ [error_result symbol error]) w'
        end
  end.

Definition analyzeBatch (symbols : list string) : M (list Result.t) :=
  analyzeBatch_loop symbols [].

(** [encodeURIComponent] on the UTF-8 bytes of the topic. *)
Definition unreserved (c : ascii) : bool :=
  let n := nat_of_ascii c in
  ((65 <=? n) && (n <=? 90) || (97 <=? n) && (n <=? 122)
   || (48 <=? n) && (n <=? 57))%nat
  || existsb (Ascii.eqb c) ["-"; "_"; "."; "!"; "~"; "*"; "'"; "("; ")"]%char.

Definition hex_digit (n : nat) : ascii :=
  nth n (list_ascii_of_string "0123456789ABCDEF") "0"%char.

Fixpoint encodeURIComponent (s : string) : string :=
  match s with
  | EmptyString => EmptyString
  | String c rest =>
      if unreserved c then String c (encodeURIComponent rest)
      else
        let n := nat_of_ascii c in
        String "%" (String (hex_digit (n / 16)) (String (hex_digit (n mod 16))
          (encodeURIComponent rest)))
  end.

Definition researchTopic (topic : string) : M Data :=
  papers <- executePayment
              ("/api/v1/data/research-papers?query="
                 ++ encodeURIComponent topic ++ "&limit=5")%string
              0.01 "GET" NoData ;;
  (* logger: papers._meta.total *)
  _ <- defined (_meta papers) "total" ;;
  ret (data papers).

(** Adaptive analysis.  [marketData.data.signals.strength] raises when the
    answer has no [signals] member. *)
Definition smartAnalysis (symbol : string) : M Result.t :=
  marketData <- executePayment (market_intelligence symbol) 0.005 "GET" NoData ;;
  sig <- defined (data_signals marketData) "strength" ;;
  let signalStrength := strength sig in
  if JsNum.ltb signalStrength 0.5 then
    ret {| Result.symbol := None;
           Result.decision := PASS;
           Result.reason := Some "Weak signal, not worth deeper analysis";
           Result.confidence := None;
           Result.totalSpent := None;
           Result.analysis := None;
           Result.error := None |}
  else if JsNum.ltb signalStrength 0.8 then
    newsText <- getMarketNews symbol ;;
    sentiment <- executePayment "/api/v1/models/sentiment-analysis" 0.02
                   "POST" (TextData newsText) ;;
    if strict_eq (data_sentiment sentiment) (trend sig) then
      prediction <- executePayment "/api/v1/models/price-prediction" 0.10 "POST"
                      (PredictData symbol "24h" None) ;;
      decision <- lift (makeDecision marketData (Some sentiment) prediction) ;;
      ret {| Result.symbol := None;
             Result.decision := decision;
             Result.reason := None;
             Result.confidence := None;
             Result.totalSpent := Some (0.005 + 0.02 + 0.10);
             Result.analysis := None;
             Result.error := None |}
    else
      ret {| Result.symbol := None;
             Result.decision := HOLD;
             Result.reason := Some "Sentiment does not confirm signal";
             Result.confidence := None;
             Result.totalSpent := Some (0.005 + 0.02);
             Result.analysis := None;
             Result.error := None |}
  else
    prediction <- executePayment "/api/v1/models/price-prediction" 0.10 "POST"
                    (PredictData symbol "24h" None) ;;
    decision <- lift (makeDecision marketData None prediction) ;;
    ret {| Result.symbol := None;
           Result.decision := decision;
           Result.reason := None;
           Result.confidence := None;
           Result.totalSpent := Some (0.005 + 0.10);
           Result.analysis := None;
           Result.error := None |}.

(* ------------------------------------------------------------------ *)
(** ** Spending report *)

Record Stat : Type := mkStat {
  count : Z;
  totalCost : Q
}.

(** The property names a plain object inherits from [Object.prototype]:
    for these [grouped[key]] is an inherited function or object, which is
    truthy, so no entry is created and the two updates land on the
    inherited member, outside the returned object. *)
Definition inherited : list string :=
  ["constructor"; "__defineGetter__"; "__defineSetter__"; "hasOwnProperty";
   "__lookupGetter__"; "__lookupSetter__"; "isPrototypeOf";
   "propertyIsEnumerable"; "toString"; "valueOf"; "__proto__";
   "toLocaleString"].

Definition inherits (key : string) : bool := existsb (String.eqb key) inherited.

(** The own entries of the object [grouped], kept as an association list
    in the order the keys were first written, updated as one step of the
    [forEach] of [groupByEndpoint] does. *)
Fixpoint tally_own (endpoint : string) (amount : Q) (grouped : list (string * Stat))
  : list (string * Stat) :=
  match grouped with
  | [] => [(endpoint, {| count := 0 + 1; totalCost := 0 + amount |})]
  | (key, s) :: rest =>
      if String.eqb key endpoint then
        (key, {| count := count s + 1; totalCost := totalCost s + amount |}) :: rest
      else (key, s) :: tally_own endpoint amount rest
  end.

(** One step of the [forEach] of [groupByEndpoint]. *)
Definition tally (endpoint : string) (amount : Q) (grouped : list (string * Stat))
  : list (string * Stat) :=
  if inherits endpoint then grouped else tally_own endpoint amount grouped.

Definition is_success (t : Transaction.t) : bool :=
  Status_eqb (Transaction.status t) success.

Definition is_failed (t : Transaction.t) : bool :=
  Status_eqb (Transaction.status t) failed.

Definition groupByEndpoint (a : Agent) : list (string * Stat) :=
  fold_left (fun grouped t => tally (Transaction.endpoint t) (Transaction.amount t) grouped)
    (filter is_success (transactions a)) [].

Module Report.
Record Budget : Type := mkBudget {
  max : Q;
  spent : Q;
  remaining : Q;
  utilization : string
}.
Record Transactions : Type := mkTransactions {
  total : nat;
  successful : nat;
  failed : nat;
  successRate : string
}.
Record t : Type := mk {
  agent : string;
  wallet : string;
  period : string;
  budget : Budget;
  transactions : Transactions;
  endpoints : list (string * Stat);
  timestamp : Z
}.
End Report.

Definition of_length {A} (l : list A) : Q := inject_Z (Z.of_nat (List.length l)).

Definition percent (x : JsNum.num) : string :=
  (JsNum.toFixed1 (JsNum.scale x 100) ++ "%")%string.

(** [getSpendingReport()], reading the agent and the clock. *)
Definition getSpendingReport (a : Agent) (clock : Z) : Report.t :=
  let successful := filter is_success (transactions a) in
  let failed := filter is_failed (transactions a) in
  {| Report.agent := name a;
     Report.wallet := wallet a;
     Report.period := "today";
     Report.budget :=
       {| Report.max := maxDailySpend a;
          Report.spent := spendingToday a;
          Report.remaining := maxDailySpend a - spendingToday a;
          Report.utilization :=
            percent (JsNum.div (spendingToday a) (maxDailySpend a)) |};
     Report.transactions :=
       {| Report.total := List.length (transactions a);
          Report.successful := List.length successful;
          Report.failed := List.length failed;
          Report.successRate :=
            percent (JsNum.div (of_length successful) (of_length (transactions a))) |};
     Report.endpoints := groupByEndpoint a;
     Report.timestamp := clock |}.

(* ------------------------------------------------------------------ *)
(** ** Sequences of method calls on one agent *)

(** The four workflows, and a direct paid call with any arguments. *)
Inductive Op : Type :=
| CallExecutePayment (endpoint : string) (amount : Q) (method : string)
    (payload : Payload)
| CallAnalyzeMarketAndDecide (symbol : string)
| CallAnalyzeBatch (symbols : list string)
| CallResearchTopic (topic : string)
| CallSmartAnalysis (symbol : string).

(** The world after a call, whether it returned or raised. *)
Definition step (w : World) (op : Op) : World :=
  match op with
  | CallExecutePayment endpoint amount method payload =>
      snd (executePayment endpoint amount method payload w)
  | CallAnalyzeMarketAndDecide symbol => snd (analyzeMarketAndDecide symbol w)
  | CallAnalyzeBatch symbols => snd (analyzeBatch symbols w)
  | CallResearchTopic topic => snd (researchTopic topic w)
  | CallSmartAnalysis symbol => snd (smartAnalysis symbol w)
  end.

Definition run (ops : list Op) (w : World) : World := fold_left step ops w.

(** States an agent can be in: constructed, then used through its methods. *)
Definition reachable (w : World) : Prop :=
  exists config net clock ops, w = run ops (boot config net clock).

(* ------------------------------------------------------------------ *)
(** ** Vocabulary of the statements *)

Definition success_entry (endpoint : string) (amount : Q) (started : Z)
    (rid : option string) (finished : Z) : Transaction.t :=
  {| Transaction.timestamp := finished;
     Transaction.endpoint := endpoint;
     Transaction.amount := amount;
     Transaction.duration := Some (finished - started)%Z;
     Transaction.status := success;
     Transaction.requestId := rid;
     Transaction.error := None |}.

Definition failed_entry (endpoint : string) (amount : Q) (error : Exn)
    (finished : Z) : Transaction.t :=
  {| Transaction.timestamp := finished;
     Transaction.endpoint := endpoint;
     Transaction.amount := amount;
     Transaction.duration := None;
     Transaction.status := failed;
     Transaction.requestId := None;
     Transaction.error := Some error |}.

(** The three ways a call can go: refused at the gate, charged, or failed
    inside the [try] block.  [w1] is the world when the attempt ended. *)
Inductive paid (endpoint : string) (amount : Q) (w : World)
  : Res Body -> World -> Prop :=
| paid_refused :
    canAfford (agent w) amount = false ->
    paid endpoint amount w
      (Throw (InsufficientBudget (maxDailySpend (agent w) - spendingToday (agent w)))) w
| paid_charged body rid w1 :
    canAfford (agent w) amount = true ->
    agent w1 = agent w -> net w1 = net w ->
    (exists more, calls w1 = calls w ++ more) ->
    paid endpoint amount w (Ok body)
      (record (success_entry endpoint amount (now w) rid (now w1)) amount w1)
| paid_failed error w1 :
    canAfford (agent w) amount = true ->
    agent w1 = agent w -> net w1 = net w ->
    (exists more, calls w1 = calls w ++ more) ->
    paid endpoint amount w (Throw error)
      (record_failed (failed_entry endpoint amount error (now w1)) w1).

Definition preserves (P : World -> Prop) {A} (m : M A) : Prop :=
  forall w, P w -> P (snd (m w)).

Module Scenario.

Definition config (cap : Q) : Config :=
  {| cfg_name := Some "AlphaTrader-001";
     cfg_address := "0xA1";
     cfg_baseUrl := Some "http://localhost:3000";
     cfg_maxDailySpend := Some cap |}.

Definition market (trend : string) (strength : Q) : Outcome :=
  Respond
    {| data := Market 100 5 {| trend := trend; strength := strength; volatility := 0.1 |};
       _meta := None |}
    None 10.

Definition sentiment (label : string) : Outcome :=
  Respond {| data := Sentiment label 0.9; _meta := None |} None 20.

Definition prediction (change confidence : Q) : Outcome :=
  Respond
    {| data := Prediction 100 110 change;
       _meta := Some {| confidence := Some confidence; total := None |} |}
    None 30.

(** The client answers the listed outcomes in turn, then refuses. *)
Definition script (answers : list Outcome) : nat -> Outcome :=
  fun n => nth n answers (Reject "ECONNREFUSED" 1).

End Scenario.

(* ------------------------------------------------------------------ *)
(** ** Vocabulary of the further properties *)

(** Pre- and postconditions of a method: the postcondition sees what the
    method returned or raised and the world it left. *)
Definition hoare {A} (P : World -> Prop) (m : M A)
    (Q : Res A -> World -> Prop) : Prop :=
  forall w, P w -> Q (fst (m w)) (snd (m w)).

(** A direct paid call whose cost and method satisfy [allowed]; the
    workflows are always admitted. *)
Definition op_allowed (allowed : Q -> string -> Prop) (op : Op) : Prop :=
  match op with
  | CallExecutePayment _ amount method _ => allowed amount method
  | _ => True
  end.

(** What the agent object is constructed with and no method assigns. *)
Definition same_identity (a b : Agent) : Prop :=
  name a = name b /\ wallet a = wallet b /\ baseUrl a = baseUrl b
  /\ maxDailySpend a = maxDailySpend b.

(** Across a run nothing is removed or rewritten: the ledger and the
    client log of [w] are prefixes of those of [w'], and the identity of
    the agent and the client are the same. *)
Definition grown_from (w w' : World) : Prop :=
  (exists more, transactions (agent w') = transactions (agent w) ++ more)
  /\ (exists more, calls w' = calls w ++ more)
  /\ same_identity (agent w') (agent w)
  /\ net w' = net w.

Definition http_method (amount : Q) (method : string) : Prop :=
  method = "GET" \/ method = "POST".

Definition non_negative_cost (amount : Q) (method : string) : Prop :=
  0 <= amount.

(* ================================================================== *)
(** * The agent over binary64 numbers

    [Double] repeats the embedding with every JavaScript number a
    binary64 float and every arithmetic operator and comparison the
    primitive operation on floats, so that the gate, the debit and the
    sums round as they do in the program.  Strings, statuses, decisions
    and [encodeURIComponent] are shared with the first part. *)

Module Double.

Local Open Scope float_scope.

(** [undefined > k] and [undefined < k] are false. *)
Definition gt (x : option float) (k : float) : bool :=
  match x with Some q => PrimFloat.ltb k q | None => false end.

Definition lt (x : option float) (k : float) : bool :=
  match x with Some q => PrimFloat.ltb q k | None => false end.

Record Signals : Type := mkSignals {
  trend : string;
  strength : float;
  volatility : float
}.

Inductive Data : Type :=
| Market (price volume : float) (signals : Signals)
| Sentiment (sentiment : string) (score : float)
| Prediction (currentPrice predictedPrice change : float)
| Papers (items : list string).

Record Meta : Type := mkMeta {
  confidence : option float;
  total : option Z
}.

Record Body : Type := mkBody {
  data : Data;
  _meta : option Meta
}.

Definition data_signals (b : Body) : option Signals :=
  match data b with Market _ _ s => Some s | _ => None end.

Definition data_volume (b : Body) : option float :=
  match data b with Market _ v _ => Some v | _ => None end.

Definition data_sentiment (b : Body) : option string :=
  match data b with Sentiment s _ => Some s | _ => None end.

Definition data_score (b : Body) : option float :=
  match data b with Sentiment _ s => Some s | _ => None end.

Definition data_change (b : Body) : option float :=
  match data b with Prediction _ _ c => Some c | _ => None end.

Record Features : Type := mkFeatures {
  f_sentiment : option float;
  f_volume : option float;
  f_volatility : float
}.

Inductive Payload : Type :=
| NoData
| TextData (text : string)
| PredictData (symbol timeframe : string) (features : option Features).

Inductive Request : Type :=
| Get (url : string)
| Post (url : string) (payload : Payload).

Inductive Outcome : Type :=
| Respond (body : Body) (requestId : option string) (elapsed : Z)
| Reject (message : string) (elapsed : Z).

Inductive Exn : Type :=
| InsufficientBudget (remaining : float)
| TransportError (message : string)
| TypeError (message : string).

Module Transaction.
Record t : Type := mk {
  timestamp : Z;
  endpoint : string;
  amount : float;
  duration : option Z;
  status : Status;
  requestId : option string;
  error : option Exn
}.
End Transaction.

Record Agent : Type := mkAgent {
  name : string;
  wallet : string;
  baseUrl : string;
  maxDailySpend : float;
  spendingToday : float;
  transactions : list Transaction.t
}.

Record World : Type := mkWorld {
  agent : Agent;
  net : nat -> Outcome;
  calls : list Request;
  now : Z
}.

(** [a || b] on an optional number: absent, zero (of either sign) and NaN
    are falsy. *)
Definition or_number (a : option float) (b : float) : float :=
  match a with
  | Some q => if PrimFloat.eqb q 0 || PrimFloat.is_nan q then b else q
  | None => b
  end.

Record Config : Type := mkConfig {
  cfg_name : option string;
  cfg_address : string;
  cfg_baseUrl : option string;
  cfg_maxDailySpend : option float
}.

Definition TradingAgent (config : Config) : Agent :=
  {| name := or_string (cfg_name config) "TradingAgent-1";
     wallet := cfg_address config;
     baseUrl := or_string (cfg_baseUrl config) "https://nulucre.com";
     maxDailySpend := or_number (cfg_maxDailySpend config) 10.0;
     spendingToday := 0;
     transactions := [] |}.

Definition boot (config : Config) (net : nat -> Outcome) (now : Z) : World :=
  {| agent := TradingAgent config; net := net; calls := []; now := now |}.

Inductive Res (A : Type) : Type :=
| Ok (a : A)
| Throw (e : Exn).
Arguments Ok {A} a.
Arguments Throw {A} e.

Definition M (A : Type) : Type := World -> Res A * World.

Definition ret {A} (a : A) : M A := fun w => (Ok a, w).

Definition throw {A} (e : Exn) : M A := fun w => (Throw e, w).

Definition bind {A B} (m : M A) (k : A -> M B) : M B :=
  fun w =>
    match m w with
    | (Ok a, w') => k a w'
    | (Throw e, w') => (Throw e, w')
    end.

Definition lift {A} (r : Res A) : M A := fun w => (r, w).

#[local, warnings="-notation-overridden"]
Notation "x <- m ;; k" := (bind m (fun x => k))
  (at level 61, m at next level, right associativity).

Definition defined {A} (x : option A) (prop : string) : M A :=
  match x with
  | Some a => ret a
  | None =>
      throw (TypeError
               ("Cannot read properties of undefined (reading '" ++ prop ++ "')")%string)
  end.

(** [remaining >= amount], with the subtraction and the comparison of
    doubles. *)
Definition canAfford (a : Agent) (amount : float) : bool :=
  let remaining := maxDailySpend a - spendingToday a in
  PrimFloat.leb amount remaining.

Definition served (req : Request) (elapsed : Z) (w : World) : World :=
  {| agent := agent w; net := net w;
     calls := calls w ++ [req]; now := (now w + elapsed)%Z |}.

Definition invoke (req : Request) : M (Body * option string) :=
  fun w =>
    match net w (List.length (calls w)) with
    | Respond body rid dt => (Ok (body, rid), served req dt w)
    | Reject msg dt => (Throw (TransportError msg), served req dt w)
    end.

(** [this.transactions.push(t); this.spendingToday += charge]. *)
Definition record (t : Transaction.t) (charge : float) (w : World) : World :=
  {| agent :=
       {| name := name (agent w);
          wallet := wallet (agent w);
          baseUrl := baseUrl (agent w);
          maxDailySpend := maxDailySpend (agent w);
          spendingToday := spendingToday (agent w) + charge;
          transactions := transactions (agent w) ++ [t] |};
     net := net w; calls := calls w; now := now w |}.

Definition record_failed (t : Transaction.t) (w : World) : World :=
  {| agent :=
       {| name := name (agent w);
          wallet := wallet (agent w);
          baseUrl := baseUrl (agent w);
          maxDailySpend := maxDailySpend (agent w);
          spendingToday := spendingToday (agent w);
          transactions := transactions (agent w) ++ [t] |};
     net := net w; calls := calls w; now := now w |}.

Definition executePayment (endpoint : string) (amount : float)
    (method : string) (payload : Payload) : M Body :=
  fun w =>
    if negb (canAfford (agent w) amount) then
      (Throw (InsufficientBudget (maxDailySpend (agent w) - spendingToday (agent w))), w)
    else
      let startTime := now w in
      let url := (baseUrl (agent w) ++ endpoint)%string in
      let attempt : M (Body * option string) :=
        if String.eqb method "GET" then invoke (Get url)
        else if String.eqb method "POST" then invoke (Post url payload)
        else throw (TypeError "Cannot read properties of undefined (reading 'headers')") in
      match attempt w with
      | (Ok (body, rid), w1) =>
          let duration := (now w1 - startTime)%Z in
          let transaction :=
            {| Transaction.timestamp := now w1;
               Transaction.endpoint := endpoint;
               Transaction.amount := amount;
               Transaction.duration := Some duration;
               Transaction.status := success;
               Transaction.requestId := rid;
               Transaction.error := None |} in
          (Ok body, record transaction amount w1)
      | (Throw error, w1) =>
          (Throw error,
           record_failed
             {| Transaction.timestamp := now w1;
                Transaction.endpoint := endpoint;
                Transaction.amount := amount;
                Transaction.duration := None;
                Transaction.status := failed;
                Transaction.requestId := None;
                Transaction.error := Some error |} w1)
      end.

Module Result.
Record t : Type := mk {
  symbol : option string;
  decision : Decision;
  reason : option string;
  confidence : option float;
  totalSpent : option float;
  analysis : option (Body * Body * Body);
  error : option Exn
}.
End Result.

Definition makeDecision (marketData : Body) (sentiment : option Body)
    (prediction : Body) : Res Decision :=
  let priceChange := data_change prediction in
  match _meta prediction with
  | None => Throw (TypeError "Cannot read properties of undefined (reading 'confidence')")
  | Some meta =>
      let confidence := confidence meta in
      let otherwise :=
        if lt priceChange (-5) && gt confidence 0.7 then Ok SELL else Ok HOLD in
      if gt priceChange 5 && gt confidence 0.7 then
        match sentiment with
        | None => Throw (TypeError "Cannot read properties of null (reading 'data')")
        | Some s =>
            if strict_eq (data_sentiment s) "positive" then Ok BUY else otherwise
        end
      else otherwise
  end.

Definition getMarketNews (symbol : string) : M string :=
  ret (symbol ++ " shows strong momentum. Institutional investors are accumulating. 
    Technical indicators suggest breakout potential. Volume increasing significantly.")%string.

Definition hold_result (symbol : string) : Result.t :=
  {| Result.symbol := Some symbol;
     Result.decision := HOLD;
     Result.reason := Some "Signal not strong enough for deep analysis";
     Result.confidence := None;
     Result.totalSpent := Some 0.005;
     Result.analysis := None;
     Result.error := None |}.

Definition analyzeMarketAndDecide (symbol : string) : M Result.t :=
  marketData <- executePayment (market_intelligence symbol) 0.005 "GET" NoData ;;
  (* logger: marketData.data.signals.trend *)
  sig <- defined (data_signals marketData) "trend" ;;
  if PrimFloat.ltb 0.7 (strength sig) then
    newsText <- getMarketNews symbol ;;
    sentiment <- executePayment "/api/v1/models/sentiment-analysis" 0.02
                   "POST" (TextData newsText) ;;
    if strict_eq (data_sentiment sentiment) "positive"
       && String.eqb (trend sig) "bullish" then
      prediction <- executePayment "/api/v1/models/price-prediction" 0.10 "POST"
                      (PredictData symbol "24h"
                         (Some {| f_sentiment := data_score sentiment;
                                  f_volume := data_volume marketData;
                                  f_volatility := volatility sig |})) ;;
      (* logger: prediction.data.change.toFixed(2), prediction._meta.confidence *)
      _ <- defined (data_change prediction) "toFixed" ;;
      meta <- defined (_meta prediction) "confidence" ;;
      decision <- lift (makeDecision marketData (Some sentiment) prediction) ;;
      ret {| Result.symbol := Some symbol;
             Result.decision := decision;
             Result.reason := None;
             Result.confidence := confidence meta;
             Result.totalSpent := Some (0.005 + 0.02 + 0.10);
             Result.analysis := Some (marketData, sentiment, prediction);
             Result.error := None |}
    else ret (hold_result symbol)
  else ret (hold_result symbol).

Definition batch_try (symbol : string) : M Result.t :=
  marketData <- executePayment (market_intelligence symbol) 0.005 "GET" NoData ;;
  sig <- defined (data_signals marketData) "strength" ;;
  if PrimFloat.ltb 0.8 (strength sig) then
    analyzeMarketAndDecide symbol
  else
    ret {| Result.symbol := Some symbol;
           Result.decision := SKIP;
           Result.reason := Some "Weak signals";
           Result.confidence := None;
           Result.totalSpent := Some 0.005;
           Result.analysis := None;
           Result.error := None |}.

Definition error_result (symbol : string) (error : Exn) : Result.t :=
  {| Result.symbol := Some symbol;
     Result.decision := ERROR;
     Result.reason := None;
     Result.confidence := None;
     Result.totalSpent := Some 0;
     Result.analysis := None;
     Result.error := Some error |}.

(** [this.spendingToday >= this.maxDailySpend * 0.9]. *)
Definition approaching_limit (a : Agent) : bool :=
  PrimFloat.leb (maxDailySpend a * 0.9) (spendingToday a).

Fixpoint analyzeBatch_loop (symbols : list string) (results : list Result.t)
  : M (list Result.t) :=
  match symbols with
  | [] => ret results
  | symbol :: rest =>
      fun w =>
        match batch_try symbol w with
        | (Ok entry, w') =>
            if approaching_limit (agent w') then (Ok (results ++ [entry]), w')
            else analyzeBatch_loop rest (results ++ [entry]) w'
        | (Throw error, w') =>
            analyzeBatch_loop rest (results ++ [error_result symbol error]) w'
        end
  end.

Definition analyzeBatch (symbols : list string) : M (list Result.t) :=
  analyzeBatch_loop symbols [].

Definition researchTopic (topic : string) : M Data :=
  papers <- executePayment
              ("/api/v1/data/research-papers?query="
                 ++ encodeURIComponent topic ++ "&limit=5")%string
              0.01 "GET" NoData ;;
  (* logger: papers._meta.total *)
  _ <- defined (_meta papers) "total" ;;
  ret (data papers).

Definition smartAnalysis (symbol : string) : M Result.t :=
  marketData <- executePayment (market_intelligence symbol) 0.005 "GET" NoData ;;
  sig <- defined (data_signals marketData) "strength" ;;
  let signalStrength := strength sig in
  if PrimFloat.ltb signalStrength 0.5 then
    ret {| Result.symbol := None;
           Result.decision := PASS;
           Result.reason := Some "Weak signal, not worth deeper analysis";
           Result.confidence := None;
           Result.totalSpent := None;
           Result.analysis := None;
           Result.error := None |}
  else if PrimFloat.ltb signalStrength 0.8 then
    newsText <- getMarketNews symbol ;;
    sentiment <- executePayment "/api/v1/models/sentiment-analysis" 0.02
                   "POST" (TextData newsText) ;;
    if strict_eq (data_sentiment sentiment) (trend sig) then
      prediction <- executePayment "/api/v1/models/price-prediction" 0.10 "POST"
                      (PredictData symbol "24h" None) ;;
      decision <- lift (makeDecision marketData (Some sentiment) prediction) ;;
      ret {| Result.symbol := None;
             Result.decision := decision;
             Result.reason := None;
             Result.confidence := None;
             Result.totalSpent := Some (0.005 + 0.02 + 0.10);
             Result.analysis := None;
             Result.error := None |}
    else
      ret {| Result.symbol := None;
             Result.decision := HOLD;
             Result.reason := Some "Sentiment does not confirm signal";
             Result.confidence := None;
             Result.totalSpent := Some (0.005 + 0.02);
             Result.analysis := None;
             Result.error := None |}
  else
    prediction <- executePayment "/api/v1/models/price-prediction" 0.10 "POST"
                    (PredictData symbol "24h" None) ;;
    decision <- lift (makeDecision marketData None prediction) ;;
    ret {| Result.symbol := None;
           Result.decision := decision;
           Result.reason := None;
           Result.confidence := None;
           Result.totalSpent := Some (0.005 + 0.10);
           Result.analysis := None;
           Result.error := None |}.

Record Stat : Type := mkStat {
  count : Z;
  totalCost : float
}.

(** The own entries of [grouped], updated as one step of the [forEach]
    does. *)
Fixpoint tally_own (endpoint : string) (amount : float) (grouped : list (string * Stat))
  : list (string * Stat) :=
  match grouped with
  | [] => [(endpoint, {| count := 0 + 1; totalCost := 0 + amount |})]
  | (key, s) :: rest =>
      if String.eqb key endpoint then
        (key, {| count := count s + 1; totalCost := totalCost s + amount |}) :: rest
      else (key, s) :: tally_own endpoint amount rest
  end.

(** One step of the [forEach] of [groupByEndpoint].  The list holds the
    own entries in the order they were created (JavaScript enumerates
    array-index keys before the others; no statement below depends on the
    order). *)
Definition tally (endpoint : string) (amount : float) (grouped : list (string * Stat))
  : list (string * Stat) :=
  if inherits endpoint then grouped else tally_own endpoint amount grouped.

Definition is_success (t : Transaction.t) : bool :=
  Status_eqb (Transaction.status t) success.

Definition groupByEndpoint (a : Agent) : list (string * Stat) :=
  fold_left (fun grouped t => tally (Transaction.endpoint t) (Transaction.amount t) grouped)
    (filter is_success (transactions a)) [].

(** Calls on one agent: the four workflows, and [executePayment] with any
    arguments. *)
Inductive Op : Type :=
| CallExecutePayment (endpoint : string) (amount : float) (method : string)
    (payload : Payload)
| CallAnalyzeMarketAndDecide (symbol : string)
| CallAnalyzeBatch (symbols : list string)
| CallResearchTopic (topic : string)
| CallSmartAnalysis (symbol : string).

Definition step (w : World) (op : Op) : World :=
  match op with
  | CallExecutePayment endpoint amount method payload =>
      snd (executePayment endpoint amount method payload w)
  | CallAnalyzeMarketAndDecide symbol => snd (analyzeMarketAndDecide symbol w)
  | CallAnalyzeBatch symbols => snd (analyzeBatch symbols w)
  | CallResearchTopic topic => snd (researchTopic topic w)
  | CallSmartAnalysis symbol => snd (smartAnalysis symbol w)
  end.

Definition run (ops : list Op) (w : World) : World := fold_left step ops w.

Definition reachable (w : World) : Prop :=
  exists config net clock ops, w = run ops (boot config net clock).

(** Concrete answers of the client. *)
Definition market (trend : string) (strength : float) : Outcome :=
  Respond
    {| data := Market 100 5 {| trend := trend; strength := strength; volatility := 0.1 |};
       _meta := None |}
    None 10.

Definition sentiment_answer (label : string) : Outcome :=
  Respond {| data := Sentiment label 0.9; _meta := None |} None 20.

Definition prediction_answer (change confidence : float) : Outcome :=
  Respond
    {| data := Prediction 100 110 change;
       _meta := Some {| confidence := Some confidence; total := None |} |}
    None 30.

Definition script (answers : list Outcome) : nat -> Outcome :=
  fun n => nth n answers (Reject "ECONNREFUSED" 1).

Definition config (cap : float) : Config :=
  {| cfg_name := Some "AlphaTrader-001";
     cfg_address := "0xA1";
     cfg_baseUrl := Some "http://localhost:3000";
     cfg_maxDailySpend := Some cap |}.

(** Statements about methods: what a method keeps, and what it returns
    in which world. *)
Definition preserves (P : World -> Prop) {A} (m : M A) : Prop :=
  forall w, P w -> P (snd (m w)).

Definition hoare {A} (P : World -> Prop) (m : M A)
    (Q : Res A -> World -> Prop) : Prop :=
  forall w, P w -> Q (fst (m w)) (snd (m w)).

(** The amounts of a list of transactions added one after the other,
    from 0, as the program adds them. *)
Definition running_sum (txs : list Transaction.t) : float :=
  fold_left (fun acc t => acc + Transaction.amount t) txs 0.


(** [grouped[key]] on the own entries. *)
Fixpoint lookup (key : string) (grouped : list (string * Stat)) : option Stat :=
  match grouped with
  | [] => None
  | (k, s) :: rest => if String.eqb k key then Some s else lookup key rest
  end.

(** The successful transactions of a ledger recorded for one endpoint. *)
Definition successes_at (endpoint : string) (txs : list Transaction.t)
  : list Transaction.t :=
  filter (fun t => String.eqb (Transaction.endpoint t) endpoint)
    (filter is_success txs).

(** What the aggregation holds after the successful transactions [txs]. *)
Definition aggregates (txs : list Transaction.t) (grouped : list (string * Stat)) : Prop :=
  NoDup (map fst grouped)
  /\ forall key,
       let at_key := filter (fun t => String.eqb (Transaction.endpoint t) key) txs in
       match lookup key grouped with
       | Some s =>
           inherits key = false
           /\ count s = Z.of_nat (List.length at_key)
           /\ totalCost s = running_sum at_key
           /\ at_key <> []
       | None => inherits key = true \/ at_key = []
       end.

(** The client log of [w] starts with [base]. *)
Definition extends (base : list Request) (w : World) : Prop :=
  exists more, calls w = base ++ more.

(** The three ways a paid call can go; [w1] is the world when the
    attempt ended. *)
Inductive paid (endpoint : string) (amount : float) (w : World)
  : Res Body -> World -> Prop :=
| paid_refused :
    canAfford (agent w) amount = false ->
    paid endpoint amount w
      (Throw (InsufficientBudget (maxDailySpend (agent w) - spendingToday (agent w)))) w
| paid_charged body t w1 :
    canAfford (agent w) amount = true ->
    agent w1 = agent w -> net w1 = net w ->
    (exists more, calls w1 = calls w ++ more) ->
    Transaction.status t = success ->
    Transaction.endpoint t = endpoint ->
    Transaction.amount t = amount ->
    paid endpoint amount w (Ok body) (record t amount w1)
| paid_failed error t w1 :
    canAfford (agent w) amount = true ->
    agent w1 = agent w -> net w1 = net w ->
    (exists more, calls w1 = calls w ++ more) ->
    Transaction.status t = failed ->
    paid endpoint amount w (Throw error) (record_failed t w1).

(** The entry pushed for a call answered at [finished] that started at
    [started]. *)
Definition success_entry (endpoint : string) (amount : float) (started : Z)
    (rid : option string) (finished : Z) : Transaction.t :=
  {| Transaction.timestamp := finished;
     Transaction.endpoint := endpoint;
     Transaction.amount := amount;
     Transaction.duration := Some (finished - started)%Z;
     Transaction.status := success;
     Transaction.requestId := rid;
     Transaction.error := None |}.

(** The world after an answered call was recorded and charged. *)
Definition charged_world (req : Request) (endpoint : string) (amount : float)
    (rid : option string) (elapsed : Z) (w : World) : World :=
  record (success_entry endpoint amount (now w) rid (now w + elapsed)) amount
    (served req elapsed w).

(** The spend counter of [w] stands at [s]. *)
Definition spent (s : float) (w : World) : Prop := spendingToday (agent w) = s.


(** The successful entries of a ledger each passed the budget gate: with
    the counter at [s] before the first entry, every successful amount is
    at most the cap less the counter at that point, the counter moving by
    one addition per successful entry. *)
Fixpoint admitted (cap s : float) (txs : list Transaction.t) : Prop :=
  match txs with
  | [] => True
  | t :: rest =>
      if is_success t then
        PrimFloat.leb (Transaction.amount t) (cap - s) = true
        /\ admitted cap (s + Transaction.amount t) rest
      else admitted cap s rest
  end.

(** The counter after the successful entries of [txs], started at [s]. *)
Definition counter_after (s : float) (txs : list Transaction.t) : float :=
  fold_left (fun acc t => acc + Transaction.amount t) (filter is_success txs) s.

(** Every charge was admitted, and the counter is what the charges add
    up to. *)
Definition ledger_gated (w : World) : Prop :=
  admitted (maxDailySpend (agent w)) 0 (transactions (agent w))
  /\ spendingToday (agent w) = counter_after 0 (transactions (agent w)).

End Double.

(* ================================================================== *)
(** * Properties *)

(** ** Comparisons *)

Lemma geb_true_iff (x y : Q) : JsNum.geb x y = true <-> y <= x.
Proof. unfold JsNum.geb. apply Qle_bool_iff. Qed.

Lemma geb_false_iff (x y : Q) : JsNum.geb x y = false <-> x < y.
Proof.
  unfold JsNum.geb. split; intros H.
  - apply Qnot_le_lt. intros Hle. apply Qle_bool_iff in Hle. congruence.
  - destruct (Qle_bool y x) eqn:E; [ | reflexivity ].
    apply Qle_bool_iff in E. lra.
Qed.

Lemma ltb_true_iff (x y : Q) : JsNum.ltb x y = true <-> x < y.
Proof. unfold JsNum.ltb. rewrite negb_true_iff. apply geb_false_iff. Qed.

Lemma ltb_false_iff (x y : Q) : JsNum.ltb x y = false <-> y <= x.
Proof. unfold JsNum.ltb. rewrite negb_false_iff. apply geb_true_iff. Qed.

Lemma canAfford_true_iff (a : Agent) (amount : Q) :
  canAfford a amount = true <-> amount <= maxDailySpend a - spendingToday a.
Proof. unfold canAfford. apply geb_true_iff. Qed.


(** ** What one [executePayment] does *)

Lemma invoke_frame (req : Request) (w : World) :
  agent (snd (invoke req w)) = agent w /\ net (snd (invoke req w)) = net w
  /\ exists more, calls (snd (invoke req w)) = calls w ++ more.
Proof. unfold invoke. destruct (net w _); simpl; eauto. Qed.

Lemma executePayment_paid endpoint amount method payload (w : World) :
  paid endpoint amount w
    (fst (executePayment endpoint amount method payload w))
    (snd (executePayment endpoint amount method payload w)).
Proof.
  unfold executePayment.
  destruct (canAfford (agent w) amount) eqn:Hgate; simpl.
  2: { now constructor. }
  set (attempt := if String.eqb method "GET" then _ else _).
  assert (Hframe : agent (snd (attempt w)) = agent w /\ net (snd (attempt w)) = net w
                   /\ exists more, calls (snd (attempt w)) = calls w ++ more).
  { subst attempt.
    destruct (String.eqb method "GET"); [ apply invoke_frame | ].
    destruct (String.eqb method "POST"); [ apply invoke_frame | ].
    simpl. repeat split. exists []. now rewrite app_nil_r. }
  destruct (attempt w) as [[[body rid] | error] w1]; simpl in *;
    destruct Hframe as (? & ? & ?); now constructor.
Qed.


Lemma executePayment_rejected endpoint amount method payload (w : World)
    message elapsed :
  canAfford (agent w) amount = true ->
  method = "GET" \/ method = "POST" ->
  net w (List.length (calls w)) = Reject message elapsed ->
  exists req,
    executePayment endpoint amount method payload w =
      (Throw (TransportError message),
       record_failed
         (failed_entry endpoint amount (TransportError message) (now w + elapsed))
         (served req elapsed w)).
Proof.
  intros Hgate Hmethod Hnet. unfold executePayment. rewrite Hgate. simpl.
  destruct Hmethod as [-> | ->]; simpl; unfold invoke; rewrite Hnet;
    eexists; reflexivity.
Qed.

Lemma executePayment_GET_responded endpoint amount payload (w : World) body rid elapsed :
  canAfford (agent w) amount = true ->
  net w (List.length (calls w)) = Respond body rid elapsed ->
  executePayment endpoint amount "GET" payload w =
    (Ok body,
     record (success_entry endpoint amount (now w) rid (now w + elapsed)) amount
       (served (Get (baseUrl (agent w) ++ endpoint)) elapsed w)).
Proof.
  intros Hgate Hnet. unfold executePayment. rewrite Hgate. simpl.
  unfold invoke. rewrite Hnet. reflexivity.
Qed.

Lemma executePayment_POST_responded endpoint amount payload (w : World) body rid elapsed :
  canAfford (agent w) amount = true ->
  net w (List.length (calls w)) = Respond body rid elapsed ->
  executePayment endpoint amount "POST" payload w =
    (Ok body,
     record (success_entry endpoint amount (now w) rid (now w + elapsed)) amount
       (served (Post (baseUrl (agent w) ++ endpoint) payload) elapsed w)).
Proof.
  intros Hgate Hnet. unfold executePayment. rewrite Hgate. simpl.
  unfold invoke. rewrite Hnet. reflexivity.
Qed.

(** ** Invariants carried through the workflows *)

Section MonadPreservation.

Variable P : World -> Prop.

Lemma preserves_ret {A} (a : A) : preserves P (ret a).
Proof. intros w Hw. exact Hw. Qed.

Lemma preserves_throw {A} (e : Exn) : preserves P (@throw A e).
Proof. intros w Hw. exact Hw. Qed.

Lemma preserves_lift {A} (r : Res A) : preserves P (lift r).
Proof. intros w Hw. exact Hw. Qed.

Lemma preserves_defined {A} (x : option A) (prop : string) :
  preserves P (defined x prop).
Proof. destruct x; [ apply preserves_ret | apply preserves_throw ]. Qed.

Lemma preserves_bind {A B} (m : M A) (k : A -> M B) :
  preserves P m -> (forall a, preserves P (k a)) -> preserves P (bind m k).
Proof.
  intros Hm Hk w Hw. unfold bind.
  specialize (Hm w Hw). destruct (m w) as [[a | e] w']; simpl in *.
  - now apply Hk.
  - exact Hm.
Qed.

End MonadPreservation.

(** Decompose a workflow into its paid calls, each handled by [Hpay]. *)
Ltac carry_through Hpay :=
  repeat first
    [ apply preserves_ret
    | apply preserves_lift
    | apply preserves_defined
    | apply Hpay
    | apply preserves_bind; [ | intros ? ]
    | match goal with
      | |- preserves _ (if ?b then _ else _) => destruct b
      end ].

Section WorkflowPreservation.

Variable P : World -> Prop.

Hypothesis P_pay :
  forall endpoint amount method payload,
    preserves P (executePayment endpoint amount method payload).

Lemma preserves_analyzeMarketAndDecide (symbol : string) :
  preserves P (analyzeMarketAndDecide symbol).
Proof. unfold analyzeMarketAndDecide, getMarketNews. carry_through P_pay. Qed.

Lemma preserves_smartAnalysis (symbol : string) :
  preserves P (smartAnalysis symbol).
Proof. unfold smartAnalysis, getMarketNews. cbv zeta. carry_through P_pay. Qed.

Lemma preserves_researchTopic (topic : string) :
  preserves P (researchTopic topic).
Proof. unfold researchTopic. carry_through P_pay. Qed.

Lemma preserves_batch_try (symbol : string) : preserves P (batch_try symbol).
Proof.
  unfold batch_try. carry_through P_pay.
Qed.

Lemma preserves_analyzeBatch_loop (symbols : list string) :
  forall results, preserves P (analyzeBatch_loop symbols results).
Proof.
  induction symbols as [ | symbol rest IH ]; intros results w Hw; simpl.
  - exact Hw.
  - pose proof (preserves_batch_try symbol w Hw) as Hstep.
    destruct (batch_try symbol w) as [[entry | error] w']; simpl in Hstep.
    + destruct (approaching_limit (agent w')); [ exact Hstep | now apply IH ].
    + now apply IH.
Qed.

Lemma preserves_step (op : Op) (w : World) : P w -> P (step w op).
Proof.
  destruct op; simpl.
  - apply P_pay.
  - apply preserves_analyzeMarketAndDecide.
  - apply preserves_analyzeBatch_loop.
  - apply preserves_researchTopic.
  - apply preserves_smartAnalysis.
Qed.

Lemma preserves_run (ops : list Op) : forall w, P w -> P (run ops w).
Proof.
  induction ops as [ | op ops IH ]; intros w Hw; simpl.
  - exact Hw.
  - apply IH. now apply preserves_step.
Qed.

End WorkflowPreservation.

(** ** Stepping into a workflow *)

(** Running a workflow up to its first answered market-signal call. *)
Ltac signal_step Hrun Hb Hnet Hsig :=
  unfold bind at 1 in Hrun;
  rewrite (executePayment_GET_responded _ _ _ _ _ _ _ Hb Hnet) in Hrun;
  rewrite Hsig in Hrun; unfold bind at 1 in Hrun;
  simpl defined in Hrun; unfold ret at 1 in Hrun; cbv zeta in Hrun.

(** ** The batch loop *)

Lemma analyzeBatch_loop_returns (symbols : list string) :
  forall results w, exists out, fst (analyzeBatch_loop symbols results w) = Ok out.
Proof.
  induction symbols as [ | symbol rest IH ]; intros results w; simpl.
  - now exists results.
  - destruct (batch_try symbol w) as [[entry | error] w'].
    + destruct (approaching_limit (agent w')); [ now eexists | apply IH ].
    + apply IH.
Qed.

(* ================================================================== *)
(** * The claims *)

(** C1.  A run of [analyzeMarketAndDecide] in which the signal is strong
    (0.9), the sentiment call is made and paid, and the trend is not
    bullish: the workflow returns HOLD reporting [totalSpent] 0.005, while
    the two tiers executed cost 0.005 + 0.02, which is what the counter
    and the ledger show. *)
Theorem analyzeMarketAndDecide_hold_reports_first_tier_only :
  let w0 := boot (Scenario.config 5)
              (Scenario.script
                 [Scenario.market "bearish" 0.9; Scenario.sentiment "positive"])
              1000 in
  let w := snd (analyzeMarketAndDecide "BTC" w0) in
  fst (analyzeMarketAndDecide "BTC" w0) = Ok (hold_result "BTC")
  /\ Result.totalSpent (hold_result "BTC") = Some 0.005
  /\ map Transaction.endpoint (transactions (agent w)) =
       ["/api/v1/data/market-intelligence?symbol=BTC";
        "/api/v1/models/sentiment-analysis"]
  /\ map Transaction.status (transactions (agent w)) = [success; success]
  /\ spendingToday (agent w) == 0.005 + 0.02
  /\ ~ 0.005 == 0.005 + 0.02.
Proof.
  repeat split; try reflexivity.
  intros H. vm_compute in H. discriminate.
Qed.

(** C3.  A run of [smartAnalysis] on a strong signal (0.9) whose
    prediction has change 6 and confidence 0.8: the sentiment tier is
    skipped, the prediction is called and paid (two transactions, spend
    0.005 + 0.10), and then the decision step raises a TypeError on the
    [null] sentiment instead of returning a decision. *)
Theorem smartAnalysis_strong_signal_decision_raises :
  let w0 := boot (Scenario.config 5)
              (Scenario.script
                 [Scenario.market "bullish" 0.9; Scenario.prediction 6 0.8])
              1000 in
  let w := snd (smartAnalysis "BNB" w0) in
  fst (smartAnalysis "BNB" w0) =
    Throw (TypeError "Cannot read properties of null (reading 'data')")
  /\ calls w =
       [Get "http://localhost:3000/api/v1/data/market-intelligence?symbol=BNB";
        Post "http://localhost:3000/api/v1/models/price-prediction"
          (PredictData "BNB" "24h" None)]
  /\ map Transaction.status (transactions (agent w)) = [success; success]
  /\ spendingToday (agent w) == 0.005 + 0.10.
Proof. repeat split; reflexivity. Qed.

(** C4.  On a freshly constructed agent (no transactions) the report's
    success rate is the rendering of 0/0, the string NaN%, not a zero. *)
Theorem getSpendingReport_empty_ledger_successRate (config : Config) (clock : Z) :
  let report := getSpendingReport (TradingAgent config) clock in
  Report.total (Report.transactions report) = 0%nat
  /\ JsNum.div (of_length (filter is_success (transactions (TradingAgent config))))
       (of_length (transactions (TradingAgent config))) = JsNum.NaN
  /\ Report.successRate (Report.transactions report) = "NaN%".
Proof. repeat split; reflexivity. Qed.

(** C5, as stated, fails: two reports of one unchanged agent taken at
    different clock readings differ. *)
Lemma getSpendingReport_differs_with_clock :
  getSpendingReport (TradingAgent (Scenario.config 5)) 1000
  <> getSpendingReport (TradingAgent (Scenario.config 5)) 2000.
Proof.
  intros H. apply (f_equal Report.timestamp) in H. discriminate.
Qed.

(** C5, amended.  Two reports of the same agent state agree on every
    member except [timestamp], which is the clock reading of the call. *)
Theorem getSpendingReport_deterministic_but_timestamp (a : Agent) (clock1 clock2 : Z) :
  let r1 := getSpendingReport a clock1 in
  let r2 := getSpendingReport a clock2 in
  Report.agent r1 = Report.agent r2
  /\ Report.wallet r1 = Report.wallet r2
  /\ Report.period r1 = Report.period r2
  /\ Report.budget r1 = Report.budget r2
  /\ Report.transactions r1 = Report.transactions r2
  /\ Report.endpoints r1 = Report.endpoints r2
  /\ Report.timestamp r1 = clock1
  /\ Report.timestamp r2 = clock2.
Proof. repeat split. Qed.

(** C6, as stated, fails.  Cap 0.15, symbols A, B, C.  A is analysed in
    full (spend 0.13, below 0.135).  B pays two signal calls (spend 0.14,
    above 0.135) and then raises on the sentiment call it cannot afford;
    it is recorded as ERROR.  The batch nevertheless goes on to C, pays
    its signal call and records SKIP. *)
Lemma analyzeBatch_continues_after_error_at_limit :
  let w0 := boot (Scenario.config 0.15)
              (Scenario.script
                 [Scenario.market "bullish" 0.9; Scenario.market "bullish" 0.9;
                  Scenario.sentiment "positive"; Scenario.prediction 6 0.8;
                  Scenario.market "bullish" 0.9; Scenario.market "bullish" 0.9;
                  Scenario.market "neutral" 0.1]) 0 in
  let wA := snd (batch_try "A" w0) in
  let wB := snd (batch_try "B" wA) in
  let final := snd (analyzeBatch ["A"; "B"; "C"] w0) in
  approaching_limit (agent wA) = false
  /\ (exists error, fst (batch_try "B" wA) = Throw error)
  /\ approaching_limit (agent wB) = true
  /\ (exists out, fst (analyzeBatch ["A"; "B"; "C"] w0) = Ok out
                  /\ map Result.decision out = [BUY; ERROR; SKIP])
  /\ calls final =
       calls wB ++ [Get "http://localhost:3000/api/v1/data/market-intelligence?symbol=C"]
  /\ List.length (transactions (agent final)) = S (List.length (transactions (agent wB))).
Proof.
  intros w0 wA wB final.
  split; [ vm_compute; reflexivity | ].
  split; [ eexists; vm_compute; reflexivity | ].
  split; [ vm_compute; reflexivity | ].
  split; [ eexists; split; vm_compute; reflexivity | ].
  split; vm_compute; reflexivity.
Qed.

(** C6, amended.  When the [try] block of a symbol completes and the
    spend counter is then at least 0.9 of the cap, the loop ends there:
    the results built so far, with this symbol's entry, are returned and
    the state is the one this symbol left.  When the block raises, the
    symbol is recorded as an ERROR entry and the loop goes on to the next
    symbol.  In every case [analyzeBatch] returns a list; it never
    raises. *)
Theorem analyzeBatch_stops_at_limit_after_completed_symbol
    symbol rest results (w : World) :
  (forall entry w',
     batch_try symbol w = (Ok entry, w') ->
     maxDailySpend (agent w') * 0.9 <= spendingToday (agent w') ->
     analyzeBatch_loop (symbol :: rest) results w = (Ok (results ++ [entry]), w'))
  /\ (forall error w',
        batch_try symbol w = (Throw error, w') ->
        analyzeBatch_loop (symbol :: rest) results w =
          analyzeBatch_loop rest (results ++ [error_result symbol error]) w')
  /\ (exists out, fst (analyzeBatch_loop (symbol :: rest) results w) = Ok out).
Proof.
  repeat split.
  - intros entry w' Htry Hlimit. simpl. rewrite Htry.
    unfold approaching_limit.
    apply geb_true_iff in Hlimit. now rewrite Hlimit.
  - intros error w' Htry. simpl. now rewrite Htry.
  - apply analyzeBatch_loop_returns.
Qed.

Lemma analyzeBatch_stops_at_limit_after_completed_symbol_witness :
  let w := boot (Scenario.config 0.005)
             (Scenario.script
                [Scenario.market "neutral" 0.2; Scenario.market "neutral" 0.2]) 0 in
  let w' := snd (batch_try "ETH" w) in
  let entry :=
    {| Result.symbol := Some "ETH";
       Result.decision := SKIP;
       Result.reason := Some "Weak signals";
       Result.confidence := None;
       Result.totalSpent := Some 0.005;
       Result.analysis := None;
       Result.error := None |} in
  maxDailySpend (agent w') * 0.9 <= spendingToday (agent w')
  /\ analyzeBatch_loop ["ETH"; "SOL"] [] w = (Ok [entry], w')
  /\ List.length (calls w') = 1%nat.
Proof.
  intros w w' entry.
  assert (Hlimit : maxDailySpend (agent w') * 0.9 <= spendingToday (agent w'))
    by (vm_compute; discriminate).
  split; [ exact Hlimit | split; [ | vm_compute; reflexivity ] ].
  apply (proj1 (analyzeBatch_stops_at_limit_after_completed_symbol
                  "ETH" ["SOL"] [] w) entry w');
    [ vm_compute; reflexivity | exact Hlimit ].
Defined.



(** C8.  When the client rejects an affordable call, [executePayment]
    appends exactly one transaction, with status failed and the endpoint,
    cost and error of the call, leaves [spendingToday] as it was, and
    raises the client's error again. *)
Theorem executePayment_transport_error endpoint amount method payload (w : World)
    message elapsed :
  amount <= maxDailySpend (agent w) - spendingToday (agent w) ->
  method = "GET" \/ method = "POST" ->
  net w (List.length (calls w)) = Reject message elapsed ->
  let result := fst (executePayment endpoint amount method payload w) in
  let w' := snd (executePayment endpoint amount method payload w) in
  result = Throw (TransportError message)
  /\ (exists t,
        transactions (agent w') = transactions (agent w) ++ [t]
        /\ Transaction.status t = failed
        /\ Transaction.endpoint t = endpoint
        /\ Transaction.amount t = amount
        /\ Transaction.error t = Some (TransportError message))
  /\ spendingToday (agent w') = spendingToday (agent w)
  /\ maxDailySpend (agent w') = maxDailySpend (agent w).
Proof.
  intros Hafford Hmethod Hnet.
  apply canAfford_true_iff in Hafford.
  destruct (executePayment_rejected endpoint amount method payload w message elapsed
              Hafford Hmethod Hnet) as [req ->].
  simpl. repeat split.
  eexists. repeat split.
Qed.

Lemma executePayment_transport_error_witness :
  let w := boot (Scenario.config 5) (Scenario.script []) 0 in
  let w' := snd (executePayment "/api/v1/models/sentiment-analysis" 0.02 "POST"
                   (TextData "news") w) in
  fst (executePayment "/api/v1/models/sentiment-analysis" 0.02 "POST"
         (TextData "news") w) = Throw (TransportError "ECONNREFUSED")
  /\ (exists t,
        transactions (agent w') = transactions (agent w) ++ [t]
        /\ Transaction.status t = failed
        /\ Transaction.endpoint t = "/api/v1/models/sentiment-analysis"
        /\ Transaction.amount t = 0.02
        /\ Transaction.error t = Some (TransportError "ECONNREFUSED"))
  /\ spendingToday (agent w') = spendingToday (agent w)
  /\ maxDailySpend (agent w') = maxDailySpend (agent w).
Proof.
  apply (executePayment_transport_error
           "/api/v1/models/sentiment-analysis" 0.02 "POST" (TextData "news")
           (boot (Scenario.config 5) (Scenario.script []) 0) "ECONNREFUSED" 1).
  - unfold Qle. simpl. lia.
  - right. reflexivity.
  - reflexivity.
Defined.

(* ================================================================== *)
(** * Further properties *)

(** ** Pre- and postconditions *)

Lemma hoare_ret {A} (P : World -> Prop) (a : A) (Q : Res A -> World -> Prop) :
  (forall w, P w -> Q (Ok a) w) -> hoare P (ret a) Q.
Proof. intros H w Hw. now apply H. Qed.

(** ** More on one [executePayment] *)

(** A returned body is the client's answer to this call. *)
Lemma executePayment_ok_inv endpoint amount method payload (w : World) body :
  fst (executePayment endpoint amount method payload w) = Ok body ->
  exists rid elapsed,
    net w (List.length (calls w)) = Respond body rid elapsed
    /\ canAfford (agent w) amount = true.
Proof.
  unfold executePayment.
  destruct (canAfford (agent w) amount); simpl; [ | discriminate ].
  destruct (String.eqb method "GET");
    [ | destruct (String.eqb method "POST"); [ | discriminate ] ];
    unfold invoke; destruct (net w (List.length (calls w))) as [b rid dt | msg dt];
    simpl; try discriminate; intros [= <-]; eauto.
Qed.

Lemma executePayment_counts endpoint amount method payload (w : World) :
  let w' := snd (executePayment endpoint amount method payload w) in
  (canAfford (agent w) amount = false -> w' = w)
  /\ (canAfford (agent w) amount = true ->
      List.length (transactions (agent w')) = S (List.length (transactions (agent w)))
      /\ (method = "GET" \/ method = "POST" ->
          List.length (calls w') = S (List.length (calls w)))
      /\ (method <> "GET" -> method <> "POST" -> calls w' = calls w)).
Proof.
  unfold executePayment. split; intros Hgate; rewrite Hgate; simpl; [ reflexivity | ].
  destruct (String.eqb_spec method "GET") as [-> | Hget].
  - unfold invoke. destruct (net w (List.length (calls w)));
      simpl; repeat rewrite length_app; simpl;
      (repeat split; [ lia | intros; lia | congruence ]).
  - destruct (String.eqb_spec method "POST") as [-> | Hpost].
    + unfold invoke. destruct (net w (List.length (calls w)));
        simpl; repeat rewrite length_app; simpl;
        (repeat split; [ lia | intros; lia | congruence ]).
    + simpl. rewrite length_app. simpl.
      repeat split; [ lia | intros [? | ?]; congruence ].
Qed.

(** ** Invariants under a condition on the direct calls *)

Section GuardedPreservation.

Variable allowed : Q -> string -> Prop.
Variable P : World -> Prop.

Hypothesis allowed_signal : allowed 0.005 "GET".
Hypothesis allowed_sentiment : allowed 0.02 "POST".
Hypothesis allowed_prediction : allowed 0.10 "POST".
Hypothesis allowed_research : allowed 0.01 "GET".

Hypothesis P_pay :
  forall endpoint amount method payload,
    allowed amount method ->
    preserves P (executePayment endpoint amount method payload).

Ltac carry_allowed :=
  repeat first
    [ apply preserves_ret
    | apply preserves_lift
    | apply preserves_defined
    | apply P_pay; assumption
    | apply preserves_bind; [ | intros ? ]
    | match goal with
      | |- preserves _ (if ?b then _ else _) => destruct b
      end ].

Lemma guarded_analyzeMarketAndDecide (symbol : string) :
  preserves P (analyzeMarketAndDecide symbol).
Proof. unfold analyzeMarketAndDecide, getMarketNews. carry_allowed. Qed.

Lemma guarded_smartAnalysis (symbol : string) :
  preserves P (smartAnalysis symbol).
Proof. unfold smartAnalysis, getMarketNews. cbv zeta. carry_allowed. Qed.

Lemma guarded_researchTopic (topic : string) :
  preserves P (researchTopic topic).
Proof. unfold researchTopic. carry_allowed. Qed.

Lemma guarded_batch_try (symbol : string) : preserves P (batch_try symbol).
Proof.
  unfold batch_try. carry_allowed; apply guarded_analyzeMarketAndDecide.
Qed.

Lemma guarded_analyzeBatch_loop (symbols : list string) :
  forall results, preserves P (analyzeBatch_loop symbols results).
Proof.
  induction symbols as [ | symbol rest IH ]; intros results w Hw; simpl.
  - exact Hw.
  - pose proof (guarded_batch_try symbol w Hw) as Hstep.
    destruct (batch_try symbol w) as [[entry | error] w']; simpl in Hstep.
    + destruct (approaching_limit (agent w')); [ exact Hstep | now apply IH ].
    + now apply IH.
Qed.

Lemma guarded_step (op : Op) (w : World) :
  op_allowed allowed op -> P w -> P (step w op).
Proof.
  destruct op; simpl; intros Hop.
  - now apply P_pay.
  - apply guarded_analyzeMarketAndDecide.
  - apply guarded_analyzeBatch_loop.
  - apply guarded_researchTopic.
  - apply guarded_smartAnalysis.
Qed.

Lemma guarded_run (ops : list Op) :
  Forall (op_allowed allowed) ops -> forall w, P w -> P (run ops w).
Proof.
  induction 1 as [ | op ops Hop Hops IH ]; intros w Hw; simpl.
  - exact Hw.
  - apply IH. now apply guarded_step.
Qed.

End GuardedPreservation.

(** ** The constructor *)



(** ** Paid calls: the other outcomes *)

(** X2.  When the client answers an affordable GET or POST call,
    [executePayment] returns the answered body, appends exactly one
    transaction, with status success and the endpoint, cost, request id
    and elapsed time of the call, adds the cost to [spendingToday], and
    has invoked the client once. *)
Theorem executePayment_success endpoint amount method payload (w : World)
    body rid elapsed :
  amount <= maxDailySpend (agent w) - spendingToday (agent w) ->
  method = "GET" \/ method = "POST" ->
  net w (List.length (calls w)) = Respond body rid elapsed ->
  let result := fst (executePayment endpoint amount method payload w) in
  let w' := snd (executePayment endpoint amount method payload w) in
  result = Ok body
  /\ (exists t,
        transactions (agent w') = transactions (agent w) ++ [t]
        /\ Transaction.status t = success
        /\ Transaction.endpoint t = endpoint
        /\ Transaction.amount t = amount
        /\ Transaction.requestId t = rid
        /\ Transaction.duration t = Some elapsed
        /\ Transaction.error t = None)
  /\ spendingToday (agent w') = spendingToday (agent w) + amount
  /\ List.length (calls w') = S (List.length (calls w)).
Proof.
  intros Hafford Hmethod Hnet.
  apply canAfford_true_iff in Hafford.
  assert (Hrun : exists req,
    executePayment endpoint amount method payload w =
      (Ok body,
       record (success_entry endpoint amount (now w) rid (now w + elapsed)) amount
         (served req elapsed w))).
  { destruct Hmethod as [-> | ->]; eexists.
    - now apply executePayment_GET_responded.
    - now apply executePayment_POST_responded. }
  destruct Hrun as [req ->]. simpl. repeat split.
  - eexists. repeat split. simpl. f_equal. lia.
  - rewrite length_app. simpl. lia.
Qed.

Lemma executePayment_success_witness :
  let w := boot (Scenario.config 5) (Scenario.script [Scenario.sentiment "positive"]) 0 in
  let w' := snd (executePayment "/api/v1/models/sentiment-analysis" 0.02 "POST"
                   (TextData "news") w) in
  spendingToday (agent w') = spendingToday (agent w) + 0.02
  /\ List.length (calls w') = 1%nat.
Proof.
  intros w w'.
  pose proof (executePayment_success "/api/v1/models/sentiment-analysis" 0.02 "POST"
                (TextData "news") w
                {| data := Sentiment "positive" 0.9; _meta := None |} None 20) as H.
  assert (Hafford : 0.02 <= maxDailySpend (agent w) - spendingToday (agent w))
    by (vm_compute; discriminate).
  specialize (H Hafford (or_intror eq_refl) eq_refl).
  split; [ exact (proj1 (proj2 (proj2 H))) | exact (proj2 (proj2 (proj2 H))) ].
Defined.

(** X3.  An affordable call with a method other than GET and POST never
    reaches the client: the missing response raises a TypeError inside
    the [try] block, one failed transaction is appended, and the counter,
    the client log and the clock stay as they were. *)
Theorem executePayment_unsupported_method endpoint amount method payload (w : World) :
  amount <= maxDailySpend (agent w) - spendingToday (agent w) ->
  method <> "GET" -> method <> "POST" ->
  let result := fst (executePayment endpoint amount method payload w) in
  let w' := snd (executePayment endpoint amount method payload w) in
  (exists message, result = Throw (TypeError message))
  /\ (exists t,
        transactions (agent w') = transactions (agent w) ++ [t]
        /\ Transaction.status t = failed
        /\ Transaction.endpoint t = endpoint
        /\ Transaction.amount t = amount)
  /\ spendingToday (agent w') = spendingToday (agent w)
  /\ calls w' = calls w
  /\ now w' = now w.
Proof.
  intros Hafford Hget Hpost.
  apply canAfford_true_iff in Hafford.
  unfold executePayment. rewrite Hafford. simpl.
  destruct (String.eqb_spec method "GET") as [? | _]; [ contradiction | ].
  destruct (String.eqb_spec method "POST") as [? | _]; [ contradiction | ].
  simpl. repeat split.
  - eexists. reflexivity.
  - eexists. repeat split.
Qed.

Lemma executePayment_unsupported_method_witness :
  let w := boot (Scenario.config 5) (Scenario.script [Scenario.sentiment "positive"]) 0 in
  let w' := snd (executePayment "/api/v1/models/sentiment-analysis" 0.02 "PUT"
                   (TextData "news") w) in
  calls w' = calls w /\ List.length (transactions (agent w')) = 1%nat.
Proof.
  intros w w'.
  assert (Hafford : 0.02 <= maxDailySpend (agent w) - spendingToday (agent w))
    by (vm_compute; discriminate).
  assert (Hget : "PUT" <> "GET") by discriminate.
  assert (Hpost : "PUT" <> "POST") by discriminate.
  pose proof (executePayment_unsupported_method "/api/v1/models/sentiment-analysis"
                0.02 "PUT" (TextData "news") w Hafford Hget Hpost) as H.
  split; [ exact (proj1 (proj2 (proj2 (proj2 H)))) | vm_compute; reflexivity ].
Defined.

(** ** What a run keeps *)

Lemma grown_from_refl (w : World) : grown_from w w.
Proof.
  repeat split; try (exists []; now rewrite app_nil_r).
Qed.

Lemma grown_from_executePayment (w0 : World) endpoint amount method payload :
  preserves (grown_from w0) (executePayment endpoint amount method payload).
Proof.
  intros w ([txs Htx] & [reqs Hcalls] & (Hname & Hwallet & Hurl & Hcap) & Hnet).
  pose proof (executePayment_paid endpoint amount method payload w) as H.
  destruct (executePayment endpoint amount method payload w) as [r w'].
  simpl in *.
  destruct H as [Hgate | body rid w1 Hgate Ha Hn [more Hc] | error w1 Hgate Ha Hn [more Hc]].
  - repeat split; eauto.
  - repeat split; simpl; try rewrite Ha; try congruence.
    + rewrite Htx, <- app_assoc. eauto.
    + rewrite Hc, Hcalls, <- app_assoc. eauto.
  - repeat split; simpl; try rewrite Ha; try congruence.
    + rewrite Htx, <- app_assoc. eauto.
    + rewrite Hc, Hcalls, <- app_assoc. eauto.
Qed.

(** X5.  Whatever methods are called and whatever the client answers, the
    ledger is append-only (the transactions of the start are a prefix of
    those of the end), so is the log of client invocations, and the name,
    wallet, base URL and cap of the agent never change. *)
Theorem run_append_only (ops : list Op) (w : World) :
  (exists more,
     transactions (agent (run ops w)) = transactions (agent w) ++ more)
  /\ (exists more, calls (run ops w) = calls w ++ more)
  /\ name (agent (run ops w)) = name (agent w)
  /\ wallet (agent (run ops w)) = wallet (agent w)
  /\ baseUrl (agent (run ops w)) = baseUrl (agent w)
  /\ maxDailySpend (agent (run ops w)) = maxDailySpend (agent w).
Proof.
  assert (H : grown_from w (run ops w)).
  { apply preserves_run.
    - apply grown_from_executePayment.
    - apply grown_from_refl. }
  destruct H as (Htx & Hcalls & (Hname & Hwallet & Hurl & Hcap) & _).
  repeat split; assumption.
Qed.

Lemma ledger_complete_executePayment endpoint amount method payload :
  http_method amount method ->
  preserves
    (fun w => List.length (transactions (agent w)) = List.length (calls w))
    (executePayment endpoint amount method payload).
Proof.
  intros Hmethod w Hw.
  destruct (executePayment_counts endpoint amount method payload w) as [Hno Hyes].
  destruct (canAfford (agent w) amount).
  - destruct (Hyes eq_refl) as (Htx & Hcalls & _).
    rewrite Htx, (Hcalls Hmethod). now f_equal.
  - now rewrite (Hno eq_refl).
Qed.

Lemma ledger_covers_executePayment endpoint amount method payload :
  preserves
    (fun w => (List.length (calls w) <= List.length (transactions (agent w)))%nat)
    (executePayment endpoint amount method payload).
Proof.
  intros w Hw.
  destruct (executePayment_counts endpoint amount method payload w) as [Hno Hyes].
  destruct (canAfford (agent w) amount).
  - destruct (Hyes eq_refl) as (Htx & Hcalls & Hnone).
    rewrite Htx.
    destruct (String.eqb_spec method "GET") as [Hg | Hg];
      [ rewrite (Hcalls (or_introl Hg)); lia | ].
    destruct (String.eqb_spec method "POST") as [Hp | Hp];
      [ rewrite (Hcalls (or_intror Hp)); lia | ].
    rewrite (Hnone Hg Hp). lia.
  - now rewrite (Hno eq_refl).
Qed.

(** X6.  Ledger completeness.  From a freshly constructed agent, after
    any sequence of workflows and direct GET or POST calls, the ledger
    has exactly one transaction per invocation of the client; with direct
    calls of any method it has at least one per invocation. *)
Theorem ledger_one_transaction_per_invocation (config : Config)
    (net : nat -> Outcome) (clock : Z) (ops : list Op) :
  let w := run ops (boot config net clock) in
  (List.length (calls w) <= List.length (transactions (agent w)))%nat
  /\ (Forall (op_allowed http_method) ops ->
      List.length (transactions (agent w)) = List.length (calls w)).
Proof.
  split.
  - apply (preserves_run
             (fun w => (List.length (calls w) <= List.length (transactions (agent w)))%nat)).
    + apply ledger_covers_executePayment.
    + simpl. lia.
  - intros Hops.
    apply (guarded_run http_method
             (fun w => List.length (transactions (agent w)) = List.length (calls w)));
      unfold http_method; auto.
    intros. now apply ledger_complete_executePayment.
Qed.

Lemma ledger_one_transaction_per_invocation_witness :
  let w := run [CallSmartAnalysis "BNB"; CallExecutePayment "/health" 0.001 "GET" NoData]
             (boot (Scenario.config 5)
                (Scenario.script
                   [Scenario.market "bullish" 0.9; Scenario.prediction 2 0.9]) 0) in
  List.length (transactions (agent w)) = List.length (calls w)
  /\ List.length (calls w) = 3%nat.
Proof.
  intros w. split; [ | vm_compute; reflexivity ].
  apply (proj2 (ledger_one_transaction_per_invocation (Scenario.config 5)
                  (Scenario.script
                     [Scenario.market "bullish" 0.9; Scenario.prediction 2 0.9]) 0
                  [CallSmartAnalysis "BNB"; CallExecutePayment "/health" 0.001 "GET" NoData])).
  repeat constructor.
Defined.

Lemma spend_grows_executePayment base endpoint amount method payload :
  non_negative_cost amount method ->
  preserves (fun w => base <= spendingToday (agent w))
    (executePayment endpoint amount method payload).
Proof.
  unfold non_negative_cost. intros Hcost w Hw.
  pose proof (executePayment_paid endpoint amount method payload w) as H.
  destruct (executePayment endpoint amount method payload w) as [r w'].
  simpl in *.
  destruct H as [Hgate | body rid w1 Hgate Ha Hn _ | error w1 Hgate Ha Hn _];
    simpl; try rewrite Ha; lra.
Qed.

(** X7.  [spendingToday] never decreases: over any sequence of workflows
    and of direct calls with non-negative costs, started in any state,
    the counter at the end is at least the counter at the start. *)
Theorem spendingToday_monotone (ops : list Op) (w : World) :
  Forall (op_allowed non_negative_cost) ops ->
  spendingToday (agent w) <= spendingToday (agent (run ops w)).
Proof.
  intros Hops.
  apply (guarded_run non_negative_cost
           (fun w' => spendingToday (agent w) <= spendingToday (agent w')));
    try exact Hops; try apply Qle_refl;
    try (unfold non_negative_cost, Qle; simpl; lia).
  intros. now apply spend_grows_executePayment.
Qed.

Lemma spendingToday_monotone_witness :
  let w := boot (Scenario.config 5)
             (Scenario.script
                [Scenario.market "bullish" 0.9; Scenario.prediction 2 0.9]) 0 in
  spendingToday (agent w)
  <= spendingToday (agent (run [CallSmartAnalysis "BNB"; CallResearchTopic "DeFi"] w)).
Proof.
  intros w.
  apply (spendingToday_monotone [CallSmartAnalysis "BNB"; CallResearchTopic "DeFi"] w).
  repeat constructor.
Defined.

(** ** Reading possibly undefined values *)

Lemma gt_true_iff (x : option Q) (k : Q) :
  gt x k = true <-> exists q, x = Some q /\ k < q.
Proof.
  destruct x as [q | ]; simpl.
  - rewrite ltb_true_iff. split; [ eauto | intros (q' & [= <-] & H); exact H ].
  - split; [ discriminate | intros (q & H & _); discriminate ].
Qed.

Lemma strict_eq_true_iff (x : option string) (s : string) :
  strict_eq x s = true <-> x = Some s.
Proof.
  destruct x as [y | ]; simpl.
  - rewrite String.eqb_eq. split; [ now intros -> | now intros [= ->] ].
  - split; discriminate.
Qed.

(** ** The decision rule *)

Lemma makeDecision_BUY_inv marketData sentiment prediction :
  makeDecision marketData sentiment prediction = Ok BUY ->
  exists s meta,
    sentiment = Some s /\ data_sentiment s = Some "positive"
    /\ _meta prediction = Some meta
    /\ gt (data_change prediction) 5 = true
    /\ gt (confidence meta) 0.7 = true.
Proof.
  unfold makeDecision.
  destruct (_meta prediction) as [meta | ]; [ | discriminate ].
  destruct (gt (data_change prediction) 5) eqn:Hc; simpl;
    [ destruct (gt (confidence meta) 0.7) eqn:Hf; simpl | ].
  - destruct sentiment as [s | ]; [ | discriminate ].
    destruct (strict_eq (data_sentiment s) "positive") eqn:Hs.
    + intros _. apply strict_eq_true_iff in Hs. exists s, meta. auto.
    + destruct (lt (data_change prediction) (-5)); discriminate.
  - rewrite andb_false_r. discriminate.
  - destruct (lt (data_change prediction) (-5) && gt (confidence meta) 0.7);
      discriminate.
Qed.

Lemma makeDecision_SELL_inv marketData sentiment prediction :
  makeDecision marketData sentiment prediction = Ok SELL ->
  exists meta,
    _meta prediction = Some meta
    /\ lt (data_change prediction) (-5) = true
    /\ gt (confidence meta) 0.7 = true.
Proof.
  unfold makeDecision.
  destruct (_meta prediction) as [meta | ]; [ | discriminate ].
  destruct (lt (data_change prediction) (-5) && gt (confidence meta) 0.7) eqn:Hsell.
  - intros _. apply andb_true_iff in Hsell. exists meta. tauto.
  - destruct (gt (data_change prediction) 5 && gt (confidence meta) 0.7);
      [ destruct sentiment as [s | ];
        [ destruct (strict_eq (data_sentiment s) "positive") | ] | ];
      discriminate.
Qed.

(** X8.  The decision rule on a prediction with a change and a
    confidence.  BUY exactly when change > 5, confidence > 0.7 and the
    sentiment label is positive; SELL exactly when change < -5 and
    confidence > 0.7, whatever the sentiment, [null] included; a
    confidence of at most 0.7 gives HOLD and never raises; so does a
    change between -5 and 5, the two bounds included. *)
Theorem makeDecision_thresholds marketData sentiment prediction
    current predicted change meta c :
  data prediction = Prediction current predicted change ->
  _meta prediction = Some meta ->
  confidence meta = Some c ->
  (makeDecision marketData sentiment prediction = Ok BUY <->
   5 < change /\ 0.7 < c
   /\ exists s, sentiment = Some s /\ data_sentiment s = Some "positive")
  /\ (makeDecision marketData sentiment prediction = Ok SELL <->
      change < -5 /\ 0.7 < c)
  /\ (c <= 0.7 -> makeDecision marketData sentiment prediction = Ok HOLD)
  /\ (-5 <= change -> change <= 5 ->
      makeDecision marketData sentiment prediction = Ok HOLD).
Proof.
  intros Hdata Hmeta Hc.
  assert (Hchange : data_change prediction = Some change)
    by (unfold data_change; now rewrite Hdata).
  assert (Hrule :
    makeDecision marketData sentiment prediction =
      if JsNum.ltb 5 change && JsNum.ltb 0.7 c then
        match sentiment with
        | None => Throw (TypeError "Cannot read properties of null (reading 'data')")
        | Some s =>
            if strict_eq (data_sentiment s) "positive" then Ok BUY
            else if JsNum.ltb change (-5) && JsNum.ltb 0.7 c then Ok SELL else Ok HOLD
        end
      else if JsNum.ltb change (-5) && JsNum.ltb 0.7 c then Ok SELL else Ok HOLD).
  { unfold makeDecision. rewrite Hmeta, Hchange, Hc. reflexivity. }
  split; [ split | split; [ split | split ] ].
  - intros H. destruct (makeDecision_BUY_inv _ _ _ H)
      as (s & meta' & -> & Hs & Hm & Hgt5 & Hgt7).
    rewrite Hmeta in Hm. injection Hm as <-.
    rewrite Hchange in Hgt5. rewrite Hc in Hgt7. simpl in *.
    apply ltb_true_iff in Hgt5, Hgt7. eauto.
  - intros (H5 & H7 & s & -> & Hs). rewrite Hrule.
    apply ltb_true_iff in H5, H7. rewrite H5, H7. simpl.
    apply strict_eq_true_iff in Hs. now rewrite Hs.
  - intros H. destruct (makeDecision_SELL_inv _ _ _ H) as (meta' & Hm & Hlt & Hgt7).
    rewrite Hmeta in Hm. injection Hm as <-.
    rewrite Hchange in Hlt. rewrite Hc in Hgt7. simpl in *.
    apply ltb_true_iff in Hlt, Hgt7. auto.
  - intros (Hm5 & H7). rewrite Hrule.
    assert (H5 : JsNum.ltb 5 change = false) by (apply ltb_false_iff; lra).
    apply ltb_true_iff in Hm5, H7. rewrite H5, Hm5, H7. reflexivity.
  - intros Hlow. rewrite Hrule.
    assert (H7 : JsNum.ltb 0.7 c = false) by now apply ltb_false_iff.
    rewrite H7, !andb_false_r. reflexivity.
  - intros Hlo Hhi. rewrite Hrule.
    assert (H5 : JsNum.ltb 5 change = false) by now apply ltb_false_iff.
    assert (Hm5 : JsNum.ltb change (-5) = false) by now apply ltb_false_iff.
    rewrite H5, Hm5. reflexivity.
Qed.

Lemma makeDecision_thresholds_witness :
  let market := {| data := Market 100 5 (mkSignals "bullish" 0.9 0.1); _meta := None |} in
  let prediction := {| data := Prediction 100 95 5; _meta := Some (mkMeta (Some 0.7) None) |} in
  makeDecision market None prediction = Ok HOLD.
Proof.
  intros market prediction.
  apply (proj1 (proj2 (proj2 (makeDecision_thresholds market None prediction
                                 100 95 5 (mkMeta (Some 0.7) None) 0.7
                                 eq_refl eq_refl eq_refl)))).
  apply Qle_refl.
Defined.

(** ** Stepping through a workflow *)

Lemma hoare_defined_then {A B} (P : World -> Prop) (x : option A) (prop : string)
    (k : A -> M B) (Q : Res B -> World -> Prop) :
  (forall e w, P w -> Q (Throw e) w) ->
  (forall a, x = Some a -> hoare P (k a) Q) ->
  hoare P (bind (defined x prop) k) Q.
Proof.
  intros Hthrow Hk w Hw. unfold bind. destruct x as [a | ]; simpl.
  - now apply Hk.
  - now apply Hthrow.
Qed.

Lemma hoare_lift_then {A B} (P : World -> Prop) (r : Res A)
    (k : A -> M B) (Q : Res B -> World -> Prop) :
  (forall e w, r = Throw e -> P w -> Q (Throw e) w) ->
  (forall a, r = Ok a -> hoare P (k a) Q) ->
  hoare P (bind (lift r) k) Q.
Proof.
  intros Hthrow Hk w Hw. unfold bind, lift. destruct r as [a | e]; simpl.
  - now apply Hk.
  - now apply Hthrow.
Qed.

Lemma hoare_ret_then {A B} (P : World -> Prop) (a : A)
    (k : A -> M B) (Q : Res B -> World -> Prop) :
  hoare P (k a) Q -> hoare P (bind (ret a) k) Q.
Proof. intros Hk w Hw. unfold bind, ret. now apply Hk. Qed.

(** ** What a trade decision rests on *)

Lemma hoare_true_bind {A B} (m : M A) (k : A -> M B) (Q : Res B -> World -> Prop) :
  (forall e w, Q (Throw e) w) ->
  (forall a, hoare (fun _ => True) (k a) Q) ->
  hoare (fun _ => True) (bind m k) Q.
Proof.
  intros Hthrow Hk w _. unfold bind. destruct (m w) as [[a | e] w']; simpl.
  - now apply Hk.
  - apply Hthrow.
Qed.

(** X11.  A BUY or SELL returned by [analyzeMarketAndDecide] comes with
    its evidence in the [analysis] member: a signal stronger than 0.7
    with a bullish trend, a positive sentiment, and a prediction with
    confidence above 0.7 (the reported [confidence]) whose change is above
    5 for BUY and below -5 for SELL.  In particular SELL, like BUY, is
    returned only under a positive sentiment and a bullish trend. *)
Theorem analyzeMarketAndDecide_trade_evidence (symbol : string) (w : World)
    (r : Result.t) :
  fst (analyzeMarketAndDecide symbol w) = Ok r ->
  Result.decision r = BUY \/ Result.decision r = SELL ->
  exists marketData sentiment prediction sig meta change c,
    Result.analysis r = Some (marketData, sentiment, prediction)
    /\ data_signals marketData = Some sig
    /\ 0.7 < strength sig
    /\ trend sig = "bullish"
    /\ data_sentiment sentiment = Some "positive"
    /\ data_change prediction = Some change
    /\ _meta prediction = Some meta
    /\ confidence meta = Some c
    /\ Result.confidence r = Some c
    /\ 0.7 < c
    /\ (Result.decision r = BUY -> 5 < change)
    /\ (Result.decision r = SELL -> change < -5).
Proof.
  revert r.
  assert (H : hoare (fun _ => True) (analyzeMarketAndDecide symbol)
    (fun res _ =>
       forall r, res = Ok r ->
         Result.decision r = BUY \/ Result.decision r = SELL ->
         exists marketData sentiment prediction sig meta change c,
           Result.analysis r = Some (marketData, sentiment, prediction)
           /\ data_signals marketData = Some sig
           /\ 0.7 < strength sig
           /\ trend sig = "bullish"
           /\ data_sentiment sentiment = Some "positive"
           /\ data_change prediction = Some change
           /\ _meta prediction = Some meta
           /\ confidence meta = Some c
           /\ Result.confidence r = Some c
           /\ 0.7 < c
           /\ (Result.decision r = BUY -> 5 < change)
           /\ (Result.decision r = SELL -> change < -5))).
  { unfold analyzeMarketAndDecide.
    apply hoare_true_bind; [ discriminate | intros marketData ].
    apply hoare_defined_then; [ discriminate | intros sig Hsig ].
    destruct (JsNum.ltb 0.7 (strength sig)) eqn:Hstrong.
    2: { apply hoare_ret. intros w1 _ r [= <-]. simpl. intros [? | ?]; discriminate. }
    unfold getMarketNews. apply hoare_ret_then.
    apply hoare_true_bind; [ discriminate | intros sentiment ].
    destruct (strict_eq (data_sentiment sentiment) "positive"
              && String.eqb (trend sig) "bullish") eqn:Hcond.
    2: { apply hoare_ret. intros w1 _ r [= <-]. simpl. intros [? | ?]; discriminate. }
    apply andb_true_iff in Hcond. destruct Hcond as [Hpos Hbull].
    apply strict_eq_true_iff in Hpos. apply String.eqb_eq in Hbull.
    apply ltb_true_iff in Hstrong.
    apply hoare_true_bind; [ discriminate | intros prediction ].
    apply hoare_defined_then; [ discriminate | intros change Hchange ].
    apply hoare_defined_then; [ discriminate | intros meta Hmeta ].
    apply hoare_lift_then; [ discriminate | intros decision Hd ].
    apply hoare_ret. intros w1 _ r [= <-]. simpl. intros Htrade.
    assert (Hconf : gt (confidence meta) 0.7 = true).
    { destruct Htrade as [-> | ->].
      - destruct (makeDecision_BUY_inv _ _ _ Hd) as (? & meta' & _ & _ & Hm & _ & Hc).
        rewrite Hmeta in Hm. now injection Hm as <-.
      - destruct (makeDecision_SELL_inv _ _ _ Hd) as (meta' & Hm & _ & Hc).
        rewrite Hmeta in Hm. now injection Hm as <-. }
    apply gt_true_iff in Hconf. destruct Hconf as (c & Hc & Hc7).
    exists marketData, sentiment, prediction, sig, meta, change, c.
    repeat split; auto.
    - intros ->.
      destruct (makeDecision_BUY_inv _ _ _ Hd) as (? & ? & _ & _ & _ & H5 & _).
      rewrite Hchange in H5. simpl in H5. now apply ltb_true_iff in H5.
    - intros ->.
      destruct (makeDecision_SELL_inv _ _ _ Hd) as (? & _ & H5 & _).
      rewrite Hchange in H5. simpl in H5. now apply ltb_true_iff in H5. }
  intros r. apply (H w I).
Qed.

Lemma analyzeMarketAndDecide_trade_evidence_witness :
  let w := boot (Scenario.config 5)
             (Scenario.script
                [Scenario.market "bullish" 0.9; Scenario.sentiment "positive";
                 Scenario.prediction (-6) 0.8]) 0 in
  exists r,
    fst (analyzeMarketAndDecide "BTC" w) = Ok r
    /\ Result.decision r = SELL
    /\ exists marketData sentiment prediction,
         Result.analysis r = Some (marketData, sentiment, prediction)
         /\ data_sentiment sentiment = Some "positive".
Proof.
  intros w.
  destruct (fst (analyzeMarketAndDecide "BTC" w)) as [r | e] eqn:Hrun;
    [ | vm_compute in Hrun; discriminate ].
  assert (Hsell : Result.decision r = SELL)
    by (vm_compute in Hrun; injection Hrun as <-; reflexivity).
  exists r. split; [ reflexivity | split; [ exact Hsell | ] ].
  destruct (analyzeMarketAndDecide_trade_evidence "BTC" w r Hrun (or_intror Hsell))
    as (marketData & sentiment & prediction & sig & meta & change & c
        & Ha & _ & _ & _ & Hs & _).
  exists marketData, sentiment, prediction. split; assumption.
Defined.

(** X12.  [smartAnalysis] returns BUY only from the medium band and only
    when the trend label of the signal is the string positive: the
    sentiment must equal the trend to reach the prediction and must be
    positive for BUY, and the strong band passes no sentiment at all.
    With a trend of bullish, bearish or neutral it never returns BUY. *)
Theorem smartAnalysis_buy_needs_positive_trend (symbol : string) (w : World)
    (r : Result.t) :
  fst (smartAnalysis symbol w) = Ok r ->
  Result.decision r = BUY ->
  exists body rid elapsed sig,
    net w (List.length (calls w)) = Respond body rid elapsed
    /\ data_signals body = Some sig
    /\ trend sig = "positive"
    /\ 0.5 <= strength sig /\ strength sig < 0.8.
Proof.
  intros Hrun Hbuy.
  unfold smartAnalysis in Hrun. unfold bind at 1 in Hrun.
  destruct (executePayment (market_intelligence symbol) 0.005 "GET" NoData w)
    as [[marketData | e] w1] eqn:Hpay; [ | discriminate ].
  destruct (executePayment_ok_inv _ _ _ _ _ _ (f_equal fst Hpay))
    as (rid & elapsed & Hnet & _).
  exists marketData, rid, elapsed.
  revert r Hrun Hbuy.
  match goal with
  | |- forall r, fst (?k w1) = Ok r -> _ -> ?G =>
      assert (H : hoare (fun _ => True) k
                    (fun res _ => forall r, res = Ok r -> Result.decision r = BUY -> G))
  end.
  { apply hoare_defined_then; [ discriminate | intros sig Hsig ].
    cbv zeta.
    destruct (JsNum.ltb (strength sig) 0.5) eqn:H5.
    { apply hoare_ret. intros w2 _ r [= <-]. discriminate. }
    destruct (JsNum.ltb (strength sig) 0.8) eqn:H8.
    - unfold getMarketNews. apply hoare_ret_then.
      apply hoare_true_bind; [ discriminate | intros sentiment ].
      destruct (strict_eq (data_sentiment sentiment) (trend sig)) eqn:Hconfirm.
      2: { apply hoare_ret. intros w2 _ r [= <-]. discriminate. }
      apply hoare_true_bind; [ discriminate | intros prediction ].
      apply hoare_lift_then; [ discriminate | intros decision Hd ].
      apply hoare_ret. intros w2 _ r [= <-]. simpl. intros ->.
      destruct (makeDecision_BUY_inv _ _ _ Hd) as (s & ? & [= <-] & Hs & _).
      apply strict_eq_true_iff in Hconfirm. rewrite Hs in Hconfirm.
      injection Hconfirm as Htrend.
      apply ltb_false_iff in H5. apply ltb_true_iff in H8.
      exists sig. auto.
    - apply hoare_true_bind; [ discriminate | intros prediction ].
      apply hoare_lift_then; [ discriminate | intros decision Hd ].
      apply hoare_ret. intros w2 _ r [= <-]. simpl. intros ->.
      destruct (makeDecision_BUY_inv _ _ _ Hd) as (s & ? & Hnone & _).
      discriminate. }
  intros r Hrun Hbuy. exact (H w1 I r Hrun Hbuy).
Qed.

Lemma smartAnalysis_buy_needs_positive_trend_witness :
  let w := boot (Scenario.config 5)
             (Scenario.script
                [Scenario.market "positive" 0.6; Scenario.sentiment "positive";
                 Scenario.prediction 6 0.8]) 0 in
  exists r,
    fst (smartAnalysis "BNB" w) = Ok r
    /\ Result.decision r = BUY
    /\ exists body rid elapsed sig,
         net w 0%nat = Respond body rid elapsed
         /\ data_signals body = Some sig /\ trend sig = "positive".
Proof.
  intros w.
  destruct (fst (smartAnalysis "BNB" w)) as [r | e] eqn:Hrun;
    [ | vm_compute in Hrun; discriminate ].
  assert (Hbuy : Result.decision r = BUY)
    by (vm_compute in Hrun; injection Hrun as <-; reflexivity).
  exists r. split; [ reflexivity | split; [ exact Hbuy | ] ].
  destruct (smartAnalysis_buy_needs_positive_trend "BNB" w r Hrun Hbuy)
    as (body & rid & elapsed & sig & Hnet & Hsig & Htrend & _).
  exists body, rid, elapsed, sig. auto.
Defined.

(** ** The batch *)

Lemma analyzeMarketAndDecide_symbol (symbol : string) :
  hoare (fun _ => True) (analyzeMarketAndDecide symbol)
    (fun res _ => forall r, res = Ok r -> Result.symbol r = Some symbol).
Proof.
  unfold analyzeMarketAndDecide.
  apply hoare_true_bind; [ discriminate | intros marketData ].
  apply hoare_defined_then; [ discriminate | intros sig Hsig ].
  destruct (JsNum.ltb 0.7 (strength sig));
    [ | apply hoare_ret; now intros w1 _ r [= <-] ].
  unfold getMarketNews. apply hoare_ret_then.
  apply hoare_true_bind; [ discriminate | intros sentiment ].
  destruct (strict_eq (data_sentiment sentiment) "positive"
            && String.eqb (trend sig) "bullish");
    [ | apply hoare_ret; now intros w1 _ r [= <-] ].
  apply hoare_true_bind; [ discriminate | intros prediction ].
  apply hoare_defined_then; [ discriminate | intros change Hchange ].
  apply hoare_defined_then; [ discriminate | intros meta Hmeta ].
  apply hoare_lift_then; [ discriminate | intros decision Hd ].
  apply hoare_ret. now intros w1 _ r [= <-].
Qed.

Lemma batch_try_symbol (symbol : string) (w : World) (entry : Result.t) :
  fst (batch_try symbol w) = Ok entry -> Result.symbol entry = Some symbol.
Proof.
  assert (H : hoare (fun _ => True) (batch_try symbol)
                (fun res _ => forall r, res = Ok r -> Result.symbol r = Some symbol)).
  { unfold batch_try.
    apply hoare_true_bind; [ discriminate | intros marketData ].
    apply hoare_defined_then; [ discriminate | intros sig Hsig ].
    destruct (JsNum.ltb 0.8 (strength sig)).
    - apply analyzeMarketAndDecide_symbol.
    - apply hoare_ret. now intros w1 _ r [= <-]. }
  exact (H w I entry).
Qed.

Lemma analyzeBatch_loop_shape (symbols : list string) :
  forall results w,
  exists out,
    fst (analyzeBatch_loop symbols results w) = Ok (results ++ out)
    /\ map Result.symbol out = map Some (firstn (List.length out) symbols)
    /\ (List.length out <= List.length symbols)%nat
    /\ ((List.length out < List.length symbols)%nat ->
        approaching_limit (agent (snd (analyzeBatch_loop symbols results w))) = true).
Proof.
  induction symbols as [ | symbol rest IH ]; intros results w; simpl.
  - exists []. rewrite app_nil_r. simpl. repeat split; auto; lia.
  - pose proof (batch_try_symbol symbol w) as Hsym.
    destruct (batch_try symbol w) as [[entry | error] w1]; simpl in *.
    + specialize (Hsym entry eq_refl).
      destruct (approaching_limit (agent w1)) eqn:Hlimit.
      * exists [entry]. simpl. rewrite Hsym.
        repeat split; auto; lia.
      * destruct (IH (results ++ [entry]) w1) as (out & Hout & Hmap & Hlen & Hstop).
        exists (entry :: out). rewrite <- app_assoc in Hout. simpl in *.
        rewrite Hsym, Hmap.
        repeat split; auto; try lia.
        intros Hshort. apply Hstop. lia.
    + destruct (IH (results ++ [error_result symbol error]) w1)
        as (out & Hout & Hmap & Hlen & Hstop).
      exists (error_result symbol error :: out). rewrite <- app_assoc in Hout.
      simpl in *. rewrite Hmap.
      repeat split; auto; try lia.
      intros Hshort. apply Hstop. lia.
Qed.

(** X13.  [analyzeBatch] returns one entry per symbol, in order, for a
    prefix of the symbols, each entry carrying its symbol; the list is
    shorter than the input only when the run ended with the counter at
    90 % of the cap or more. *)
Theorem analyzeBatch_results_follow_symbols (symbols : list string) (w : World) :
  exists out,
    fst (analyzeBatch symbols w) = Ok out
    /\ map Result.symbol out = map Some (firstn (List.length out) symbols)
    /\ (List.length out <= List.length symbols)%nat
    /\ ((List.length out < List.length symbols)%nat ->
        let w' := snd (analyzeBatch symbols w) in
        maxDailySpend (agent w') * 0.9 <= spendingToday (agent w')).
Proof.
  destruct (analyzeBatch_loop_shape symbols [] w) as (out & Hout & Hmap & Hlen & Hstop).
  exists out. repeat split; auto.
  intros Hshort. apply geb_true_iff. now apply Hstop.
Qed.

(** ** Thresholds of the other workflows *)

(** X15.  Deep analysis escalates on strength strictly above 0.7: when
    the signal call is answered with a strength of at most 0.7 (0.7
    itself included), [analyzeMarketAndDecide] returns HOLD with
    [totalSpent] 0.005 after that one call, one transaction and a charge
    of 0.005. *)
Theorem analyzeMarketAndDecide_weak_signal symbol (w : World) body rid elapsed sig :
  net w (List.length (calls w)) = Respond body rid elapsed ->
  data_signals body = Some sig ->
  strength sig <= 0.7 ->
  0.005 <= maxDailySpend (agent w) - spendingToday (agent w) ->
  let w' := snd (analyzeMarketAndDecide symbol w) in
  fst (analyzeMarketAndDecide symbol w) = Ok (hold_result symbol)
  /\ calls w' = calls w ++ [Get (baseUrl (agent w) ++ market_intelligence symbol)]
  /\ List.length (transactions (agent w')) = S (List.length (transactions (agent w)))
  /\ spendingToday (agent w') == spendingToday (agent w) + 0.005.
Proof.
  intros Hnet Hsig Hs Hb.
  apply canAfford_true_iff in Hb.
  destruct (analyzeMarketAndDecide symbol w) as [r w'] eqn:Hrun.
  unfold analyzeMarketAndDecide in Hrun. signal_step Hrun Hb Hnet Hsig.
  apply ltb_false_iff in Hs. rewrite Hs in Hrun.
  injection Hrun as <- <-. simpl.
  repeat split; try reflexivity.
  rewrite length_app. simpl. lia.
Qed.

Lemma analyzeMarketAndDecide_weak_signal_witness :
  let w := boot (Scenario.config 5) (Scenario.script [Scenario.market "bullish" 0.7]) 0 in
  fst (analyzeMarketAndDecide "BTC" w) = Ok (hold_result "BTC")
  /\ List.length (calls (snd (analyzeMarketAndDecide "BTC" w))) = 1%nat.
Proof.
  intros w.
  assert (Hs : 0.7 <= 0.7) by apply Qle_refl.
  assert (Hb : 0.005 <= maxDailySpend (agent w) - spendingToday (agent w))
    by (vm_compute; discriminate).
  pose proof (analyzeMarketAndDecide_weak_signal "BTC" w
                {| data := Market 100 5 (mkSignals "bullish" 0.7 0.1); _meta := None |}
                None 10 (mkSignals "bullish" 0.7 0.1) eq_refl eq_refl Hs Hb) as H.
  split; [ exact (proj1 H) | vm_compute; reflexivity ].
Defined.

(** X16.  The batch escalates on strength strictly above 0.8: when the
    signal call of a symbol is answered with a strength of at most 0.8
    (0.8 itself included, which [smartAnalysis] treats as strong), the
    symbol is recorded as SKIP with [totalSpent] 0.005 after that one
    call and a charge of 0.005. *)
Theorem batch_try_skips_up_to_threshold symbol (w : World) body rid elapsed sig :
  net w (List.length (calls w)) = Respond body rid elapsed ->
  data_signals body = Some sig ->
  strength sig <= 0.8 ->
  0.005 <= maxDailySpend (agent w) - spendingToday (agent w) ->
  let w' := snd (batch_try symbol w) in
  (exists entry,
     fst (batch_try symbol w) = Ok entry
     /\ Result.symbol entry = Some symbol
     /\ Result.decision entry = SKIP
     /\ Result.totalSpent entry = Some 0.005)
  /\ calls w' = calls w ++ [Get (baseUrl (agent w) ++ market_intelligence symbol)]
  /\ spendingToday (agent w') == spendingToday (agent w) + 0.005.
Proof.
  intros Hnet Hsig Hs Hb.
  apply canAfford_true_iff in Hb.
  destruct (batch_try symbol w) as [r w'] eqn:Hrun.
  unfold batch_try in Hrun. signal_step Hrun Hb Hnet Hsig.
  apply ltb_false_iff in Hs. rewrite Hs in Hrun.
  injection Hrun as <- <-. simpl.
  split; [ eexists; repeat split | split; reflexivity ].
Qed.

Lemma batch_try_skips_up_to_threshold_witness :
  let w := boot (Scenario.config 5) (Scenario.script [Scenario.market "bullish" 0.8]) 0 in
  exists entry,
    fst (batch_try "ETH" w) = Ok entry /\ Result.decision entry = SKIP.
Proof.
  intros w.
  assert (Hs : 0.8 <= 0.8) by apply Qle_refl.
  assert (Hb : 0.005 <= maxDailySpend (agent w) - spendingToday (agent w))
    by (vm_compute; discriminate).
  destruct (proj1 (batch_try_skips_up_to_threshold "ETH" w
                {| data := Market 100 5 (mkSignals "bullish" 0.8 0.1); _meta := None |}
                None 10 (mkSignals "bullish" 0.8 0.1) eq_refl eq_refl Hs Hb))
    as (entry & Hrun & _ & Hskip & _).
  exists entry. split; assumption.
Defined.

(** ** The report's counts and rates *)

Lemma status_partition (txs : list Transaction.t) :
  (List.length (filter is_success txs) + List.length (filter is_failed txs))%nat
  = List.length txs.
Proof.
  induction txs as [ | t txs IH ]; simpl; [ reflexivity | ].
  unfold is_success at 1, is_failed at 1.
  destruct (Transaction.status t); simpl; lia.
Qed.

Lemma count_tally (endpoint : string) (amount : Q) (grouped : list (string * Stat)) :
  fold_right (fun entry acc => (count (snd entry) + acc)%Z) 0%Z
    (tally endpoint amount grouped)
  = (fold_right (fun entry acc => (count (snd entry) + acc)%Z) 0%Z grouped
     + if inherits endpoint then 0 else 1)%Z.
Proof.
  unfold tally. destruct (inherits endpoint); [ lia | ].
  induction grouped as [ | [k s] rest IH ]; simpl; [ lia | ].
  destruct (String.eqb k endpoint); simpl; [ lia | rewrite IH; lia ].
Qed.

(** X20.  In every report the successful and the failed count add up to
    the total count, and the per-endpoint counts add up to the number of
    successful transactions whose endpoint is not a name every object
    inherits (those get no entry). *)
Theorem getSpendingReport_counts_add_up (a : Agent) (clock : Z) :
  let r := getSpendingReport a clock in
  (Report.successful (Report.transactions r) + Report.failed (Report.transactions r))%nat
  = Report.total (Report.transactions r)
  /\ fold_right (fun entry acc => (count (snd entry) + acc)%Z) 0%Z (Report.endpoints r)
     = Z.of_nat
         (List.length
            (filter (fun t => negb (inherits (Transaction.endpoint t)))
               (filter is_success (transactions a)))).
Proof.
  cbv zeta. simpl. split; [ apply status_partition | ].
  unfold groupByEndpoint.
  assert (H : forall txs grouped,
    fold_right (fun entry acc => (count (snd entry) + acc)%Z) 0%Z
      (fold_left
         (fun grouped t => tally (Transaction.endpoint t) (Transaction.amount t) grouped)
         txs grouped)
    = (fold_right (fun entry acc => (count (snd entry) + acc)%Z) 0%Z grouped
       + Z.of_nat
           (List.length
              (filter (fun t => negb (inherits (Transaction.endpoint t))) txs)))%Z).
  { induction txs as [ | t txs IH ]; intros grouped; simpl; [ lia | ].
    rewrite IH, count_tally.
    destruct (inherits (Transaction.endpoint t)); simpl; lia. }
  exact (H (filter is_success (transactions a)) []).
Qed.

Lemma string_append_assoc (s1 s2 s3 : string) :
  ((s1 ++ s2) ++ s3 = s1 ++ s2 ++ s3)%string.
Proof. induction s1 as [ | c s1 IH ]; simpl; [ reflexivity | now rewrite IH ]. Qed.

(** Rendering of a ratio whose percentage is a whole number [n]. *)
Lemma percent_of_ratio (p q : Q) (n : Z) :
  ~ q == 0 -> (0 <= n)%Z -> (p / q) * 100 == inject_Z n ->
  percent (JsNum.div p q) =
    (JsNum.digits n ++ "." ++ JsNum.digits 0 ++ "%")%string.
Proof.
  intros Hq Hpos Hval. unfold percent, JsNum.div.
  destruct (Qeq_bool q 0) eqn:E; [ apply Qeq_bool_iff in E; contradiction | ].
  unfold JsNum.scale, JsNum.toFixed1. remember (p / q * 100) as x eqn:Hx. clear Hx.
  assert (Hn : 0 <= inject_Z n) by (unfold Qle; simpl; lia).
  assert (Hneg : JsNum.ltb x 0 = false) by (apply ltb_false_iff; lra).
  rewrite Hneg.
  assert (Hfloor : Qfloor (Qabs x * 10 + (1 # 2)) = (n * 10)%Z).
  { rewrite Qabs_pos by lra.
    assert (Heq : x * 10 + (1 # 2) == inject_Z (n * 10) + (1 # 2)).
    { rewrite Hval, inject_Z_mult. reflexivity. }
    rewrite Heq.
    apply Z.le_antisymm.
    - apply Z.lt_succ_r. rewrite Zlt_Qlt.
      eapply Qle_lt_trans; [ apply Qfloor_le | ].
      unfold Z.succ. rewrite inject_Z_plus.
      change (inject_Z 1) with 1. lra.
    - rewrite <- (Qfloor_Z (n * 10)) at 1. apply Qfloor_resp_le. lra. }
  cbv zeta. rewrite Hfloor, Z.div_mul, Z.mod_mul by lia.
  change ("" ++ JsNum.digits n ++ "." ++ JsNum.digits 0)%string
    with (JsNum.digits n ++ "." ++ JsNum.digits 0)%string.
  now rewrite !string_append_assoc.
Qed.

Lemma of_length_nonzero {A} (l : list A) : l <> [] -> ~ of_length l == 0.
Proof.
  intros Hl H. destruct l as [ | x l ]; [ contradiction | ].
  unfold of_length, Qeq in H. simpl in H. lia.
Qed.

(** X21.  The success rate at its two ends.  On a ledger that is not
    empty the report prints 100.0% when every transaction succeeded and
    0.0% when none did. *)
Theorem getSpendingReport_successRate_extremes (a : Agent) (clock : Z) :
  transactions a <> [] ->
  let rate := Report.successRate (Report.transactions (getSpendingReport a clock)) in
  (filter is_success (transactions a) = transactions a -> rate = "100.0%")
  /\ (filter is_success (transactions a) = [] -> rate = "0.0%").
Proof.
  intros Hne. cbv zeta. simpl Report.successRate.
  pose proof (of_length_nonzero _ Hne) as Hnz.
  split; intros Hall; rewrite Hall.
  - rewrite (percent_of_ratio _ _ 100 Hnz); [ reflexivity | lia | ].
    change (inject_Z 100) with 100. field. exact Hnz.
  - rewrite (percent_of_ratio _ _ 0 Hnz); [ reflexivity | lia | ].
    change (inject_Z 0) with 0. unfold of_length at 1. simpl.
    change (inject_Z 0) with 0. field. exact Hnz.
Qed.

Lemma getSpendingReport_successRate_extremes_witness :
  let w := snd (executePayment "/api/v1/models/sentiment-analysis" 0.02 "POST"
                  (TextData "news")
                  (boot (Scenario.config 5) (Scenario.script []) 0)) in
  Report.successRate (Report.transactions (getSpendingReport (agent w) 0)) = "0.0%".
Proof.
  intros w.
  assert (Hne : transactions (agent w) <> []) by (vm_compute; discriminate).
  apply (proj2 (getSpendingReport_successRate_extremes (agent w) 0 Hne)).
  vm_compute. reflexivity.
Defined.

(** ** Research mode *)

(** X22.  [researchTopic] on an answered, affordable call: the cost 0.01
    is charged and one transaction recorded in every case; the papers
    ([data]) are returned when the answer has a [_meta] member, and a
    TypeError is raised, after the charge, when it has none. *)
Theorem researchTopic_outcomes topic (w : World) body rid elapsed :
  net w (List.length (calls w)) = Respond body rid elapsed ->
  0.01 <= maxDailySpend (agent w) - spendingToday (agent w) ->
  let w' := snd (researchTopic topic w) in
  fst (researchTopic topic w) =
    match _meta body with
    | Some _ => Ok (data body)
    | None => Throw (TypeError "Cannot read properties of undefined (reading 'total')")
    end
  /\ spendingToday (agent w') == spendingToday (agent w) + 0.01
  /\ List.length (transactions (agent w')) = S (List.length (transactions (agent w)))
  /\ calls w' =
       calls w ++ [Get (baseUrl (agent w) ++ "/api/v1/data/research-papers?query="
                          ++ encodeURIComponent topic ++ "&limit=5")].
Proof.
  intros Hnet Hb. apply canAfford_true_iff in Hb.
  destruct (researchTopic topic w) as [r w'] eqn:Hrun.
  unfold researchTopic in Hrun. unfold bind at 1 in Hrun.
  rewrite (executePayment_GET_responded _ _ _ _ _ _ _ Hb Hnet) in Hrun.
  unfold bind in Hrun.
  destruct (_meta body) as [meta | ]; simpl in Hrun;
    injection Hrun as <- <-; simpl;
    (repeat split; try reflexivity; rewrite length_app; simpl; lia).
Qed.

Lemma researchTopic_outcomes_witness :
  let w := boot (Scenario.config 5)
             (Scenario.script
                [Respond {| data := Papers ["paper"]; _meta := None |} None 5]) 0 in
  fst (researchTopic "DeFi yield" w)
  = Throw (TypeError "Cannot read properties of undefined (reading 'total')")
  /\ spendingToday (agent (snd (researchTopic "DeFi yield" w)))
     == spendingToday (agent w) + 0.01.
Proof.
  intros w.
  assert (Hb : 0.01 <= maxDailySpend (agent w) - spendingToday (agent w))
    by (vm_compute; discriminate).
  pose proof (researchTopic_outcomes "DeFi yield" w
                {| data := Papers ["paper"]; _meta := None |} None 5 eq_refl Hb) as H.
  split; [ exact (proj1 H) | exact (proj1 (proj2 H)) ].
Defined.

(** ** The encoded query *)

Lemma hex_digit_injective (a b : nat) :
  (a < 16)%nat -> (b < 16)%nat -> hex_digit a = hex_digit b -> a = b.
Proof.
  intros Ha Hb.
  do 16 (destruct a as [ | a ];
         [ do 16 (destruct b as [ | b ]; [ first [ reflexivity | discriminate ] | ]);
           lia | ]).
  lia.
Qed.

Lemma hex_digit_unreserved (n : nat) : (n < 16)%nat -> unreserved (hex_digit n) = true.
Proof.
  intros Hn. do 16 (destruct n as [ | n ]; [ reflexivity | ]). lia.
Qed.

Lemma nat_of_ascii_bound (c : ascii) : (nat_of_ascii c < 256)%nat.
Proof. destruct c as [[] [] [] [] [] [] [] []]; vm_compute; lia. Qed.

Lemma nat_of_ascii_injective (c d : ascii) : nat_of_ascii c = nat_of_ascii d -> c = d.
Proof.
  intros H. rewrite <- (ascii_nat_embedding c), <- (ascii_nat_embedding d). now f_equal.
Qed.

(** X23.  The topic is encoded so that the research endpoint is
    unambiguous: the encoded query consists of unreserved characters and
    percent signs only (so it holds no ampersand, equals sign, question
    mark, hash, slash or space), a topic of unreserved characters is
    left as it is, and different topics give different encodings. *)
Theorem encodeURIComponent_safe_and_injective :
  (forall s,
     Forall (fun c => unreserved c = true \/ c = "%"%char)
       (list_ascii_of_string (encodeURIComponent s)))
  /\ (forall s,
        Forall (fun c => unreserved c = true) (list_ascii_of_string s) ->
        encodeURIComponent s = s)
  /\ (forall s1 s2, encodeURIComponent s1 = encodeURIComponent s2 -> s1 = s2).
Proof.
  split; [ | split ].
  - induction s as [ | c s IH ]; cbn -[Nat.div Nat.modulo hex_digit unreserved];
      [ constructor | ].
    destruct (unreserved c) eqn:Hc; cbn -[Nat.div Nat.modulo hex_digit unreserved].
    + constructor; auto.
    + pose proof (nat_of_ascii_bound c) as Hbound.
      constructor; [ now right | ].
      constructor; [ left; apply hex_digit_unreserved;
                     apply Nat.Div0.div_lt_upper_bound; lia | ].
      constructor; [ left; apply hex_digit_unreserved;
                     apply Nat.mod_upper_bound; lia | ].
      exact IH.
  - induction s as [ | c s IH ]; cbn -[unreserved]; intros Hall; [ reflexivity | ].
    inversion Hall as [ | ? ? Hc Hrest ]; subst.
    rewrite Hc. f_equal. now apply IH.
  - induction s1 as [ | c1 s1 IH ]; intros [ | c2 s2 ];
      cbn -[Nat.div Nat.modulo hex_digit unreserved].
    + reflexivity.
    + destruct (unreserved c2); discriminate.
    + destruct (unreserved c1); discriminate.
    + destruct (unreserved c1) eqn:H1, (unreserved c2) eqn:H2.
      * intros [= -> Hrest]. f_equal. now apply IH.
      * intros [= -> _]. discriminate.
      * intros [= <- _]. discriminate.
      * intros [= Hhi' Hlo' Hrest].
        assert (Hhi : hex_digit (nat_of_ascii c1 / 16) = hex_digit (nat_of_ascii c2 / 16))
          by exact Hhi'.
        assert (Hlo : hex_digit (nat_of_ascii c1 mod 16) = hex_digit (nat_of_ascii c2 mod 16))
          by exact Hlo'.
        clear Hhi' Hlo'.
        pose proof (nat_of_ascii_bound c1) as Hb1.
        pose proof (nat_of_ascii_bound c2) as Hb2.
        apply hex_digit_injective in Hhi;
          [ | apply Nat.Div0.div_lt_upper_bound; lia
            | apply Nat.Div0.div_lt_upper_bound; lia ].
        apply hex_digit_injective in Hlo;
          [ | apply Nat.mod_upper_bound; lia | apply Nat.mod_upper_bound; lia ].
        f_equal; [ | now apply IH ].
        apply nat_of_ascii_injective.
        rewrite (Nat.div_mod_eq (nat_of_ascii c1) 16),
                (Nat.div_mod_eq (nat_of_ascii c2) 16).
        now rewrite Hhi, Hlo.
Qed.

(** ** Witnesses of the properties above *)

Lemma analyzeBatch_results_follow_symbols_witness :
  let w := boot (Scenario.config 0.005)
             (Scenario.script
                [Scenario.market "neutral" 0.2; Scenario.market "neutral" 0.2]) 0 in
  let w' := snd (analyzeBatch ["ETH"; "SOL"] w) in
  maxDailySpend (agent w') * 0.9 <= spendingToday (agent w').
Proof.
  intros w w'.
  destruct (analyzeBatch_results_follow_symbols ["ETH"; "SOL"] w)
    as (out & Hout & _ & _ & Hstop).
  apply Hstop.
  assert (Hlen : List.length out = 1%nat).
  { vm_compute in Hout. injection Hout as <-. reflexivity. }
  rewrite Hlen. simpl. lia.
Defined.

Lemma encodeURIComponent_safe_and_injective_witness :
  encodeURIComponent "DeFi-2.0" = "DeFi-2.0".
Proof.
  apply (proj1 (proj2 encodeURIComponent_safe_and_injective) "DeFi-2.0").
  repeat constructor.
Defined.

(* ================================================================== *)
(** * Properties over binary64 numbers *)

Local Open Scope float_scope.

(** ** One paid call *)

Lemma double_invoke_frame (req : Double.Request) (w : Double.World) :
  Double.agent (snd (Double.invoke req w)) = Double.agent w
  /\ Double.net (snd (Double.invoke req w)) = Double.net w
  /\ exists more, Double.calls (snd (Double.invoke req w)) = Double.calls w ++ more.
Proof. unfold Double.invoke. destruct (Double.net w _); simpl; eauto. Qed.

Lemma double_executePayment_paid endpoint amount method payload (w : Double.World) :
  Double.paid endpoint amount w
    (fst (Double.executePayment endpoint amount method payload w))
    (snd (Double.executePayment endpoint amount method payload w)).
Proof.
  unfold Double.executePayment.
  destruct (Double.canAfford (Double.agent w) amount) eqn:Hgate; simpl.
  2: { now constructor. }
  set (attempt := if String.eqb method "GET" then _ else _).
  assert (Hframe :
    Double.agent (snd (attempt w)) = Double.agent w
    /\ Double.net (snd (attempt w)) = Double.net w
    /\ exists more, Double.calls (snd (attempt w)) = Double.calls w ++ more).
  { subst attempt.
    destruct (String.eqb method "GET"); [ apply double_invoke_frame | ].
    destruct (String.eqb method "POST"); [ apply double_invoke_frame | ].
    simpl. repeat split. exists []. now rewrite app_nil_r. }
  destruct (attempt w) as [[[body rid] | error] w1]; simpl in *;
    destruct Hframe as (? & ? & ?); now constructor.
Qed.

Lemma double_executePayment_refused endpoint amount method payload (w : Double.World) :
  Double.canAfford (Double.agent w) amount = false ->
  Double.executePayment endpoint amount method payload w =
    (Double.Throw
       (Double.InsufficientBudget
          (Double.maxDailySpend (Double.agent w) - Double.spendingToday (Double.agent w))),
     w).
Proof. intros Hgate. unfold Double.executePayment. now rewrite Hgate. Qed.

Lemma double_executePayment_GET_responded endpoint amount payload (w : Double.World)
    body rid elapsed :
  Double.canAfford (Double.agent w) amount = true ->
  Double.net w (List.length (Double.calls w)) = Double.Respond body rid elapsed ->
  Double.executePayment endpoint amount "GET" payload w =
    (Double.Ok body,
     Double.charged_world (Double.Get (Double.baseUrl (Double.agent w) ++ endpoint))
       endpoint amount rid elapsed w).
Proof.
  intros Hgate Hnet. unfold Double.executePayment. rewrite Hgate. simpl.
  unfold Double.invoke. rewrite Hnet. reflexivity.
Qed.

Lemma double_executePayment_POST_responded endpoint amount payload (w : Double.World)
    body rid elapsed :
  Double.canAfford (Double.agent w) amount = true ->
  Double.net w (List.length (Double.calls w)) = Double.Respond body rid elapsed ->
  Double.executePayment endpoint amount "POST" payload w =
    (Double.Ok body,
     Double.charged_world
       (Double.Post (Double.baseUrl (Double.agent w) ++ endpoint) payload)
       endpoint amount rid elapsed w).
Proof.
  intros Hgate Hnet. unfold Double.executePayment. rewrite Hgate. simpl.
  unfold Double.invoke. rewrite Hnet. reflexivity.
Qed.

Lemma double_executePayment_calls endpoint amount method payload (w : Double.World) :
  Double.canAfford (Double.agent w) amount = true ->
  (method = "GET" ->
   Double.calls (snd (Double.executePayment endpoint amount method payload w)) =
     Double.calls w ++ [Double.Get (Double.baseUrl (Double.agent w) ++ endpoint)])
  /\ (method = "POST" ->
      Double.calls (snd (Double.executePayment endpoint amount method payload w)) =
        Double.calls w
        ++ [Double.Post (Double.baseUrl (Double.agent w) ++ endpoint) payload]).
Proof.
  intros Hgate. unfold Double.executePayment. rewrite Hgate. simpl.
  split; intros ->; simpl; unfold Double.invoke;
    destruct (Double.net w (List.length (Double.calls w))); reflexivity.
Qed.

Lemma double_served_next req endpoint amount rid elapsed (w : Double.World) :
  let w1 := Double.charged_world req endpoint amount rid elapsed w in
  Double.net w1 (List.length (Double.calls w1))
  = Double.net w (S (List.length (Double.calls w))).
Proof. simpl. rewrite length_app. simpl. now rewrite Nat.add_1_r. Qed.

(** ** Invariants carried through the workflows *)

Section DoubleMonadPreservation.

Variable P : Double.World -> Prop.

Lemma double_preserves_ret {A} (a : A) : Double.preserves P (Double.ret a).
Proof. intros w Hw. exact Hw. Qed.

Lemma double_preserves_lift {A} (r : Double.Res A) : Double.preserves P (Double.lift r).
Proof. intros w Hw. exact Hw. Qed.

Lemma double_preserves_defined {A} (x : option A) (prop : string) :
  Double.preserves P (Double.defined x prop).
Proof. destruct x; intros w Hw; exact Hw. Qed.

Lemma double_preserves_bind {A B} (m : Double.M A) (k : A -> Double.M B) :
  Double.preserves P m -> (forall a, Double.preserves P (k a)) ->
  Double.preserves P (Double.bind m k).
Proof.
  intros Hm Hk w Hw. unfold Double.bind.
  specialize (Hm w Hw). destruct (m w) as [[a | e] w']; simpl in *.
  - now apply Hk.
  - exact Hm.
Qed.

End DoubleMonadPreservation.

Ltac double_carry Hpay :=
  repeat first
    [ apply double_preserves_ret
    | apply double_preserves_lift
    | apply double_preserves_defined
    | apply Hpay
    | apply double_preserves_bind; [ | intros ? ]
    | match goal with
      | |- Double.preserves _ (if ?b then _ else _) => destruct b
      end ].

Section DoubleWorkflowPreservation.

Variable P : Double.World -> Prop.

Hypothesis P_pay :
  forall endpoint amount method payload,
    Double.preserves P (Double.executePayment endpoint amount method payload).

Lemma double_preserves_analyzeMarketAndDecide (symbol : string) :
  Double.preserves P (Double.analyzeMarketAndDecide symbol).
Proof.
  unfold Double.analyzeMarketAndDecide, Double.getMarketNews. double_carry P_pay.
Qed.

Lemma double_preserves_smartAnalysis (symbol : string) :
  Double.preserves P (Double.smartAnalysis symbol).
Proof.
  unfold Double.smartAnalysis, Double.getMarketNews. cbv zeta. double_carry P_pay.
Qed.

Lemma double_preserves_researchTopic (topic : string) :
  Double.preserves P (Double.researchTopic topic).
Proof. unfold Double.researchTopic. double_carry P_pay. Qed.

Lemma double_preserves_batch_try (symbol : string) :
  Double.preserves P (Double.batch_try symbol).
Proof.
  unfold Double.batch_try. double_carry P_pay;
    apply double_preserves_analyzeMarketAndDecide.
Qed.

Lemma double_preserves_analyzeBatch_loop (symbols : list string) :
  forall results, Double.preserves P (Double.analyzeBatch_loop symbols results).
Proof.
  induction symbols as [ | symbol rest IH ]; intros results w Hw; simpl.
  - exact Hw.
  - pose proof (double_preserves_batch_try symbol w Hw) as Hstep.
    destruct (Double.batch_try symbol w) as [[entry | error] w']; simpl in Hstep.
    + destruct (Double.approaching_limit (Double.agent w')); [ exact Hstep | now apply IH ].
    + now apply IH.
Qed.

Lemma double_preserves_step (op : Double.Op) (w : Double.World) :
  P w -> P (Double.step w op).
Proof.
  destruct op; simpl.
  - apply P_pay.
  - apply double_preserves_analyzeMarketAndDecide.
  - apply double_preserves_analyzeBatch_loop.
  - apply double_preserves_researchTopic.
  - apply double_preserves_smartAnalysis.
Qed.

Lemma double_preserves_run (ops : list Double.Op) :
  forall w, P w -> P (Double.run ops w).
Proof.
  induction ops as [ | op ops IH ]; intros w Hw; simpl.
  - exact Hw.
  - apply IH. now apply double_preserves_step.
Qed.

End DoubleWorkflowPreservation.

Lemma double_extends_executePayment base endpoint amount method payload :
  Double.preserves (Double.extends base)
    (Double.executePayment endpoint amount method payload).
Proof.
  intros w [more Hmore].
  destruct (double_executePayment_paid endpoint amount method payload w)
    as [ ? | ? ? ? ? ? ? [more1 H1] | ? ? ? ? ? ? [more1 H1] ]; unfold Double.extends; simpl.
  - now exists more.
  - exists (more ++ more1). now rewrite H1, Hmore, app_assoc.
  - exists (more ++ more1). now rewrite H1, Hmore, app_assoc.
Qed.

Lemma double_makeDecision_range marketData sentiment prediction d :
  Double.makeDecision marketData sentiment prediction = Double.Ok d ->
  d = BUY \/ d = SELL \/ d = HOLD.
Proof.
  unfold Double.makeDecision.
  destruct (Double._meta prediction) as [meta | ]; [ | discriminate ].
  destruct (Double.gt (Double.data_change prediction) 5
            && Double.gt (Double.confidence meta) 0.7);
    [ destruct sentiment as [s | ]; [ destruct (strict_eq _ _) | discriminate ] | ];
    try destruct (Double.lt (Double.data_change prediction) (-5)
                  && Double.gt (Double.confidence meta) 0.7);
    intros [= <-]; auto.
Qed.

(** ** The bands of the adaptive analysis *)

(** Running a workflow up to its first answered market-signal call. *)
Ltac double_signal_step Hrun Hb Hnet Hsig :=
  unfold Double.bind at 1 in Hrun;
  rewrite (double_executePayment_GET_responded _ _ _ _ _ _ _ Hb Hnet) in Hrun;
  rewrite Hsig in Hrun; unfold Double.bind at 1 in Hrun;
  simpl Double.defined in Hrun; unfold Double.ret at 1 in Hrun; cbv zeta in Hrun.

Lemma double_smartAnalysis_weak_band symbol (w : Double.World) body rid elapsed sig :
  Double.canAfford (Double.agent w) 0.005 = true ->
  Double.net w (List.length (Double.calls w)) = Double.Respond body rid elapsed ->
  Double.data_signals body = Some sig ->
  PrimFloat.ltb (Double.strength sig) 0.5 = true ->
  (exists r, fst (Double.smartAnalysis symbol w) = Double.Ok r
             /\ Double.Result.decision r = PASS)
  /\ Double.calls (snd (Double.smartAnalysis symbol w)) =
       Double.calls w
       ++ [Double.Get (Double.baseUrl (Double.agent w) ++ market_intelligence symbol)].
Proof.
  intros Hb Hnet Hsig Hs.
  destruct (Double.smartAnalysis symbol w) as [r w'] eqn:Hrun.
  unfold Double.smartAnalysis in Hrun. double_signal_step Hrun Hb Hnet Hsig.
  rewrite Hs in Hrun.
  injection Hrun as <- <-.
  split; [ eexists; split; reflexivity | reflexivity ].
Qed.

Lemma double_smartAnalysis_strong_band symbol (w : Double.World) body rid elapsed sig :
  Double.canAfford (Double.agent w) 0.005 = true ->
  Double.net w (List.length (Double.calls w)) = Double.Respond body rid elapsed ->
  Double.data_signals body = Some sig ->
  PrimFloat.ltb (Double.strength sig) 0.5 = false ->
  PrimFloat.ltb (Double.strength sig) 0.8 = false ->
  Double.calls (snd (Double.smartAnalysis symbol w)) =
    Double.calls w
    ++ Double.Get (Double.baseUrl (Double.agent w) ++ market_intelligence symbol)
       :: (if PrimFloat.leb 0.10
                (Double.maxDailySpend (Double.agent w)
                 - (Double.spendingToday (Double.agent w) + 0.005))
           then [Double.Post
                   (Double.baseUrl (Double.agent w) ++ "/api/v1/models/price-prediction")
                   (Double.PredictData symbol "24h" None)]
           else []).
Proof.
  intros Hb1 Hnet Hsig H5 H8.
  destruct (Double.smartAnalysis symbol w) as [r w'] eqn:Hrun.
  unfold Double.smartAnalysis in Hrun. double_signal_step Hrun Hb1 Hnet Hsig.
  rewrite H5, H8 in Hrun.
  unfold Double.bind at 1 in Hrun.
  destruct (PrimFloat.leb 0.10 _) eqn:Hb2.
  - match type of Hrun with
    | context [Double.executePayment ?e ?a ?m ?p ?w1] =>
        pose proof (proj2 (double_executePayment_calls e a m p w1 Hb2) eq_refl) as Hcalls;
        destruct (Double.executePayment e a m p w1) as [r2 w2]
    end.
    simpl in Hcalls.
    assert (Hw : w' = w2).
    { destruct r2 as [prediction | e]; [ | now injection Hrun ].
      unfold Double.bind, Double.lift, Double.ret in Hrun.
      destruct (Double.makeDecision body None prediction); now injection Hrun. }
    subst w'. simpl. rewrite Hcalls, <- app_assoc. reflexivity.
  - rewrite double_executePayment_refused in Hrun by exact Hb2.
    injection Hrun as <- <-. reflexivity.
Qed.

Lemma double_smartAnalysis_medium_band symbol (w : Double.World) body rid elapsed sig :
  Double.canAfford (Double.agent w) 0.005 = true ->
  Double.net w (List.length (Double.calls w)) = Double.Respond body rid elapsed ->
  Double.data_signals body = Some sig ->
  PrimFloat.ltb (Double.strength sig) 0.5 = false ->
  PrimFloat.ltb (Double.strength sig) 0.8 = true ->
  exists text more,
    Double.calls (snd (Double.smartAnalysis symbol w)) =
      Double.calls w
      ++ Double.Get (Double.baseUrl (Double.agent w) ++ market_intelligence symbol)
         :: (if PrimFloat.leb 0.02
                  (Double.maxDailySpend (Double.agent w)
                   - (Double.spendingToday (Double.agent w) + 0.005))
             then Double.Post
                    (Double.baseUrl (Double.agent w) ++ "/api/v1/models/sentiment-analysis")
                    (Double.TextData text) :: more
             else []).
Proof.
  intros Hb1 Hnet Hsig H5 H8.
  destruct (Double.smartAnalysis symbol w) as [r w'] eqn:Hrun.
  unfold Double.smartAnalysis in Hrun. double_signal_step Hrun Hb1 Hnet Hsig.
  rewrite H5, H8 in Hrun.
  unfold Double.bind at 1, Double.getMarketNews at 1, Double.ret at 1 in Hrun.
  unfold Double.bind at 1 in Hrun.
  destruct (PrimFloat.leb 0.02 _) eqn:Hb2.
  2: { rewrite double_executePayment_refused in Hrun by exact Hb2.
       injection Hrun as <- <-. exists "", []. reflexivity. }
  match type of Hrun with
  | context [Double.executePayment ?e ?a ?m ?p ?w1] =>
      pose proof (proj2 (double_executePayment_calls e a m p w1 Hb2) eq_refl) as Hcalls;
      destruct (Double.executePayment e a m p w1) as [r2 w2]
  end.
  simpl in Hcalls. rewrite <- app_assoc in Hcalls. simpl in Hcalls.
  destruct r2 as [sentiment | e].
  2: { injection Hrun as <- <-. eexists. exists []. simpl. exact Hcalls. }
  assert (Hext : Double.extends (Double.calls w2) w').
  { replace w' with (snd (r, w')) by reflexivity. rewrite <- Hrun.
    match goal with
    | |- Double.extends _ (snd (?k w2)) =>
        assert (Hk : Double.preserves (Double.extends (Double.calls w2)) k)
          by double_carry (double_extends_executePayment (Double.calls w2))
    end.
    apply Hk. exists []. now rewrite app_nil_r. }
  destruct Hext as [more Hmore]. do 2 eexists. simpl.
  rewrite Hmore, Hcalls, <- app_assoc. reflexivity.
Qed.

(** At or above 0.5 the adaptive analysis never returns PASS, whatever
    the later calls do. *)
Lemma double_smartAnalysis_not_PASS symbol (w : Double.World) body rid elapsed sig :
  Double.canAfford (Double.agent w) 0.005 = true ->
  Double.net w (List.length (Double.calls w)) = Double.Respond body rid elapsed ->
  Double.data_signals body = Some sig ->
  PrimFloat.ltb (Double.strength sig) 0.5 = false ->
  forall r, fst (Double.smartAnalysis symbol w) = Double.Ok r ->
            Double.Result.decision r <> PASS.
Proof.
  intros Hb1 Hnet Hsig H5.
  destruct (Double.smartAnalysis symbol w) as [r w'] eqn:Hrun.
  unfold Double.smartAnalysis in Hrun. double_signal_step Hrun Hb1 Hnet Hsig.
  rewrite H5 in Hrun. simpl. intros res ->.
  destruct (PrimFloat.ltb (Double.strength sig) 0.8).
  - unfold Double.bind at 1, Double.getMarketNews at 1, Double.ret at 1 in Hrun.
    unfold Double.bind at 1 in Hrun.
    destruct (Double.executePayment _ _ _ _ _) as [[sentiment | e] w2];
      [ | discriminate ].
    destruct (strict_eq (Double.data_sentiment sentiment) (Double.trend sig)).
    2: { injection Hrun as <- _. discriminate. }
    unfold Double.bind at 1 in Hrun.
    destruct (Double.executePayment _ _ _ _ w2) as [[prediction | e] w3];
      [ | discriminate ].
    unfold Double.bind, Double.lift, Double.ret in Hrun.
    destruct (Double.makeDecision body (Some sentiment) prediction) as [d | e] eqn:Hd;
      [ | discriminate ].
    injection Hrun as <- _. simpl.
    destruct (double_makeDecision_range _ _ _ _ Hd) as [-> | [-> | ->]]; discriminate.
  - unfold Double.bind at 1 in Hrun.
    destruct (Double.executePayment _ _ _ _ _) as [[prediction | e] w2];
      [ | discriminate ].
    unfold Double.bind, Double.lift, Double.ret in Hrun.
    destruct (Double.makeDecision body None prediction) as [d | e] eqn:Hd;
      [ | discriminate ].
    injection Hrun as <- _. simpl.
    destruct (double_makeDecision_range _ _ _ _ Hd) as [-> | [-> | ->]]; discriminate.
Qed.

(** ** The budget cap *)

(** C2.  A freshly constructed agent with cap 0.11 makes two direct paid
    calls, 0.04 and then 0.07, both answered.  Each call passes the budget
    gate ([0.11 - 0.04 >= 0.07] holds in binary64), both are charged, and
    the counter ends at 0.11000000000000001, above the cap: the gate
    subtracts and the debit adds, and in binary64 the two are not inverse.
    A further call of any positive amount is then refused, as the second
    half of the claim says. *)
Theorem double_spend_exceeds_cap :
  let w0 := Double.boot (Double.config 0.11)
              (Double.script [Double.market "neutral" 0.3; Double.market "neutral" 0.3]) 0 in
  let first := Double.CallExecutePayment "/api/v1/data/a" 0.04 "GET" Double.NoData in
  let second := Double.CallExecutePayment "/api/v1/data/b" 0.07 "GET" Double.NoData in
  let w1 := Double.run [first] w0 in
  let w2 := Double.run [first; second] w0 in
  Double.reachable w2
  /\ Double.spendingToday (Double.agent w0) = 0
  /\ Double.canAfford (Double.agent w0) 0.04 = true
  /\ Double.spendingToday (Double.agent w1) = 0.04
  /\ Double.canAfford (Double.agent w1) 0.07 = true
  /\ map Double.Transaction.status (Double.transactions (Double.agent w2))
     = [success; success]
  /\ map Double.Transaction.amount (Double.transactions (Double.agent w2))
     = [0.04; 0.07]
  /\ Double.maxDailySpend (Double.agent w2) = 0.11
  /\ Double.spendingToday (Double.agent w2) = 0.11000000000000001
  /\ PrimFloat.ltb (Double.maxDailySpend (Double.agent w2))
       (Double.spendingToday (Double.agent w2)) = true.
Proof.
  intros w0 first second w1 w2.
  split.
  { exists (Double.config 0.11),
      (Double.script [Double.market "neutral" 0.3; Double.market "neutral" 0.3]),
      0%Z, [first; second].
    reflexivity. }
  repeat split; vm_compute; reflexivity.
Qed.

(** ** Signal classification *)

(** C9.  Let the market-signal call of [smartAnalysis] pass the budget gate
    and be answered with a signal of the given strength.  At strength 0.5
    the result is not PASS and the next call, made when the budget gate
    admits it (0.02 against the cap less the counter after the debit of
    0.005), is the sentiment analysis; at 0.8 the result is not PASS and
    the next and last call, made when the gate admits it (0.10), is the
    price prediction, so that no sentiment call is made; at 0.4999 the
    result is PASS after the signal call alone.  The gates are the
    comparisons the code makes, on binary64 numbers. *)
Theorem double_smartAnalysis_threshold_boundaries symbol (w : Double.World)
    body rid elapsed sig :
  Double.canAfford (Double.agent w) 0.005 = true ->
  Double.net w (List.length (Double.calls w)) = Double.Respond body rid elapsed ->
  Double.data_signals body = Some sig ->
  let signal :=
    Double.Get (Double.baseUrl (Double.agent w) ++ market_intelligence symbol) in
  let remaining_after_signal :=
    Double.maxDailySpend (Double.agent w)
    - (Double.spendingToday (Double.agent w) + 0.005) in
  (Double.strength sig = 0.5 ->
   (forall r, fst (Double.smartAnalysis symbol w) = Double.Ok r ->
              Double.Result.decision r <> PASS)
   /\ exists text more,
        Double.calls (snd (Double.smartAnalysis symbol w)) =
          Double.calls w
          ++ signal
             :: (if PrimFloat.leb 0.02 remaining_after_signal
                 then Double.Post
                        (Double.baseUrl (Double.agent w)
                         ++ "/api/v1/models/sentiment-analysis")
                        (Double.TextData text) :: more
                 else []))
  /\ (Double.strength sig = 0.8 ->
      (forall r, fst (Double.smartAnalysis symbol w) = Double.Ok r ->
                 Double.Result.decision r <> PASS)
      /\ Double.calls (snd (Double.smartAnalysis symbol w)) =
           Double.calls w
           ++ signal
              :: (if PrimFloat.leb 0.10 remaining_after_signal
                  then [Double.Post
                          (Double.baseUrl (Double.agent w)
                           ++ "/api/v1/models/price-prediction")
                          (Double.PredictData symbol "24h" None)]
                  else []))
  /\ (Double.strength sig = 0.4999 ->
      (exists r, fst (Double.smartAnalysis symbol w) = Double.Ok r
                 /\ Double.Result.decision r = PASS)
      /\ Double.calls (snd (Double.smartAnalysis symbol w)) = Double.calls w ++ [signal]).
Proof.
  intros Hb Hnet Hsig signal remaining_after_signal.
  split; [ | split ]; intros Hs.
  - assert (H5 : PrimFloat.ltb (Double.strength sig) 0.5 = false) by now rewrite Hs.
    assert (H8 : PrimFloat.ltb (Double.strength sig) 0.8 = true) by now rewrite Hs.
    split.
    + apply (double_smartAnalysis_not_PASS symbol w body rid elapsed sig); auto.
    + apply (double_smartAnalysis_medium_band symbol w body rid elapsed sig); auto.
  - assert (H5 : PrimFloat.ltb (Double.strength sig) 0.5 = false) by now rewrite Hs.
    assert (H8 : PrimFloat.ltb (Double.strength sig) 0.8 = false) by now rewrite Hs.
    split.
    + apply (double_smartAnalysis_not_PASS symbol w body rid elapsed sig); auto.
    + apply (double_smartAnalysis_strong_band symbol w body rid elapsed sig); auto.
  - assert (H5 : PrimFloat.ltb (Double.strength sig) 0.5 = true) by now rewrite Hs.
    apply (double_smartAnalysis_weak_band symbol w body rid elapsed sig); auto.
Qed.

Lemma double_smartAnalysis_threshold_boundaries_witness :
  let world_at s :=
    Double.boot (Double.config 5)
      (Double.script [Double.market "neutral" s; Double.sentiment_answer "positive"]) 0 in
  (forall r, fst (Double.smartAnalysis "BNB" (world_at 0.5)) = Double.Ok r ->
             Double.Result.decision r <> PASS)
  /\ Double.calls (snd (Double.smartAnalysis "BNB" (world_at 0.8))) =
       [Double.Get "http://localhost:3000/api/v1/data/market-intelligence?symbol=BNB";
        Double.Post "http://localhost:3000/api/v1/models/price-prediction"
          (Double.PredictData "BNB" "24h" None)]
  /\ (exists r, fst (Double.smartAnalysis "BNB" (world_at 0.4999)) = Double.Ok r
                /\ Double.Result.decision r = PASS).
Proof.
  intros world_at. split; [ | split ].
  - exact (proj1 (proj1 (double_smartAnalysis_threshold_boundaries "BNB" (world_at 0.5)
             {| Double.data :=
                  Double.Market 100 5
                    {| Double.trend := "neutral"; Double.strength := 0.5;
                       Double.volatility := 0.1 |};
                Double._meta := None |}
             None 10
             {| Double.trend := "neutral"; Double.strength := 0.5;
                Double.volatility := 0.1 |}
             eq_refl eq_refl eq_refl) eq_refl)).
  - exact (proj2 (proj1 (proj2 (double_smartAnalysis_threshold_boundaries "BNB" (world_at 0.8)
             {| Double.data :=
                  Double.Market 100 5
                    {| Double.trend := "neutral"; Double.strength := 0.8;
                       Double.volatility := 0.1 |};
                Double._meta := None |}
             None 10
             {| Double.trend := "neutral"; Double.strength := 0.8;
                Double.volatility := 0.1 |}
             eq_refl eq_refl eq_refl)) eq_refl)).
  - exact (proj1 (proj2 (proj2 (double_smartAnalysis_threshold_boundaries "BNB" (world_at 0.4999)
             {| Double.data :=
                  Double.Market 100 5
                    {| Double.trend := "neutral"; Double.strength := 0.4999;
                       Double.volatility := 0.1 |};
                Double._meta := None |}
             None 10
             {| Double.trend := "neutral"; Double.strength := 0.4999;
                Double.volatility := 0.1 |}
             eq_refl eq_refl eq_refl)) eq_refl)).
Defined.

(** The second gate decides on the counter after the first debit: with
    cap 0.105 and nothing spent, a signal of strength 0.8 is paid (0.005)
    and the prediction call (0.10) is refused, the remaining budget being
    0.099999999999999992. *)
Example double_smartAnalysis_second_gate_refuses :
  let w := Double.boot (Double.config 0.105)
             (Double.script [Double.market "bullish" 0.8; Double.prediction_answer 2 0.9]) 0 in
  fst (Double.smartAnalysis "BNB" w) =
       Double.Throw (Double.InsufficientBudget 0.099999999999999992)
  /\ Double.calls (snd (Double.smartAnalysis "BNB" w)) =
       [Double.Get "http://localhost:3000/api/v1/data/market-intelligence?symbol=BNB"].
Proof. repeat split; vm_compute; reflexivity. Qed.

(** ** The counter and the endpoint aggregation *)

Lemma double_running_sum_snoc (txs : list Double.Transaction.t) (t : Double.Transaction.t) :
  Double.running_sum (txs ++ [t]) = Double.running_sum txs + Double.Transaction.amount t.
Proof. unfold Double.running_sum. now rewrite fold_left_app. Qed.


Lemma double_lookup_tally_own (key endpoint : string) (amount : float)
    (grouped : list (string * Double.Stat)) :
  Double.lookup key (Double.tally_own endpoint amount grouped) =
    if String.eqb endpoint key then
      Some match Double.lookup endpoint grouped with
           | Some s =>
               {| Double.count := Double.count s + 1;
                  Double.totalCost := Double.totalCost s + amount |}
           | None => {| Double.count := 0 + 1; Double.totalCost := 0 + amount |}
           end
    else Double.lookup key grouped.
Proof.
  induction grouped as [ | [k s] rest IH ]; simpl.
  - destruct (String.eqb endpoint key); reflexivity.
  - destruct (String.eqb_spec k endpoint) as [-> | Hk]; simpl.
    + destruct (String.eqb endpoint key); reflexivity.
    + rewrite IH.
      destruct (String.eqb_spec k key) as [-> | Hkey]; [ | reflexivity ].
      destruct (String.eqb_spec endpoint key) as [<- | _]; [ contradiction | reflexivity ].
Qed.

Lemma double_keys_tally_own (endpoint : string) (amount : float)
    (grouped : list (string * Double.Stat)) :
  map fst (Double.tally_own endpoint amount grouped) =
    if in_dec string_dec endpoint (map fst grouped) then map fst grouped
    else map fst grouped ++ [endpoint].
Proof.
  induction grouped as [ | [k s] rest IH ]; simpl.
  - reflexivity.
  - destruct (String.eqb_spec k endpoint) as [-> | Hk]; simpl.
    + destruct (string_dec endpoint endpoint); [ reflexivity | contradiction ].
    + rewrite IH. destruct (string_dec k endpoint); [ contradiction | ].
      destruct (in_dec string_dec endpoint (map fst rest)); reflexivity.
Qed.

Lemma double_aggregates_snoc (txs : list Double.Transaction.t) (t : Double.Transaction.t)
    (grouped : list (string * Double.Stat)) :
  Double.aggregates txs grouped ->
  Double.aggregates (txs ++ [t])
    (Double.tally (Double.Transaction.endpoint t) (Double.Transaction.amount t) grouped).
Proof.
  intros [Hnodup Hentries]. unfold Double.tally.
  destruct (inherits (Double.Transaction.endpoint t)) eqn:Hinh.
  - split; [ exact Hnodup | ].
    intros key. cbv zeta. rewrite filter_app. simpl.
    specialize (Hentries key). cbv zeta in Hentries.
    destruct (String.eqb_spec (Double.Transaction.endpoint t) key) as [<- | Hkey].
    + destruct (Double.lookup (Double.Transaction.endpoint t) grouped) as [s | ].
      * destruct Hentries as [Hno _]. congruence.
      * now left.
    + now rewrite app_nil_r.
  - split.
    + rewrite double_keys_tally_own.
      destruct (in_dec string_dec (Double.Transaction.endpoint t) (map fst grouped))
        as [Hin | Hout]; [ exact Hnodup | ].
      apply NoDup_app; repeat split; auto.
      * constructor; [ intros [] | constructor ].
      * intros k Hk [<- | []]. contradiction.
    + intros key. cbv zeta. rewrite double_lookup_tally_own, filter_app. simpl.
      destruct (String.eqb_spec (Double.Transaction.endpoint t) key) as [<- | Hkey].
      * specialize (Hentries (Double.Transaction.endpoint t)). cbv zeta in Hentries.
        destruct (Double.lookup (Double.Transaction.endpoint t) grouped) as [s | ]; simpl.
        -- destruct Hentries as (_ & Hcount & Htotal & _).
           rewrite length_app, double_running_sum_snoc, Hcount, Htotal. simpl.
           repeat split; [ exact Hinh | lia | ].
           intros H. apply app_eq_nil in H. destruct H; discriminate.
        -- destruct Hentries as [Hyes | Hnone]; [ congruence | ].
           rewrite Hnone. simpl.
           repeat split; [ exact Hinh | discriminate ].
      * rewrite app_nil_r. apply Hentries.
Qed.

Lemma double_aggregates_fold (txs : list Double.Transaction.t) :
  Double.aggregates txs
    (fold_left
       (fun grouped t =>
          Double.tally (Double.Transaction.endpoint t) (Double.Transaction.amount t) grouped)
       txs []).
Proof.
  induction txs as [ | t txs IH ] using rev_ind.
  - split; [ constructor | intros key; now right ].
  - rewrite fold_left_app. simpl. now apply double_aggregates_snoc.
Qed.




(** X19.  [groupByEndpoint] is the per-endpoint summary of the successful
    transactions, kept in a plain object: every endpoint has at most one
    entry; an endpoint whose name every object inherits ([constructor],
    [toString], [__proto__], ...) never gets one; any other endpoint has
    an entry exactly when a successful transaction was recorded for it,
    and then the entry's [count] is the number of those transactions and
    its [totalCost] their amounts added in ledger order.  Failed
    transactions contribute nothing. *)
Theorem double_groupByEndpoint_entries (a : Double.Agent) :
  NoDup (map fst (Double.groupByEndpoint a))
  /\ forall endpoint,
       let at_endpoint := Double.successes_at endpoint (Double.transactions a) in
       (inherits endpoint = true ->
        Double.lookup endpoint (Double.groupByEndpoint a) = None)
       /\ (inherits endpoint = false ->
           match Double.lookup endpoint (Double.groupByEndpoint a) with
           | Some s =>
               Double.count s = Z.of_nat (List.length at_endpoint)
               /\ Double.totalCost s = Double.running_sum at_endpoint
               /\ at_endpoint <> []
           | None => at_endpoint = []
           end).
Proof.
  destruct (double_aggregates_fold (filter Double.is_success (Double.transactions a)))
    as [Hnodup H].
  split; [ exact Hnodup | ].
  intros endpoint. cbv zeta. specialize (H endpoint). cbv zeta in H.
  unfold Double.groupByEndpoint, Double.successes_at.
  destruct (Double.lookup endpoint _) as [s | ]; split; intros Hinh.
  - destruct H as [Hno _]. congruence.
  - destruct H as (_ & Hcount & Htotal & Hne). auto.
  - reflexivity.
  - destruct H as [Hyes | Hnone]; [ congruence | exact Hnone ].
Qed.

Lemma double_groupByEndpoint_entries_witness :
  let w := Double.run
             [Double.CallExecutePayment "constructor" 0.01 "GET" Double.NoData;
              Double.CallExecutePayment "api/v1/data/a" 0.02 "GET" Double.NoData]
             (Double.boot
                {| Double.cfg_name := None;
                   Double.cfg_address := "0xA1";
                   Double.cfg_baseUrl := Some "http://localhost:3000/";
                   Double.cfg_maxDailySpend := Some 5 |}
                (Double.script [Double.market "neutral" 0.3; Double.market "neutral" 0.3]) 0) in
  map Double.Transaction.endpoint
    (filter Double.is_success (Double.transactions (Double.agent w)))
  = ["constructor"; "api/v1/data/a"]
  /\ Double.lookup "constructor" (Double.groupByEndpoint (Double.agent w)) = None
  /\ map fst (Double.groupByEndpoint (Double.agent w)) = ["api/v1/data/a"].
Proof.
  intros w. split; [ vm_compute; reflexivity | split ].
  - exact (proj1 (proj2 (double_groupByEndpoint_entries (Double.agent w)) "constructor")
             eq_refl).
  - vm_compute. reflexivity.
Defined.

(** ** What the budget gate guarantees *)

Lemma double_counter_after_snoc (s : float) (txs : list Double.Transaction.t)
    (t : Double.Transaction.t) :
  Double.counter_after s (txs ++ [t]) =
    if Double.is_success t
    then Double.counter_after s txs + Double.Transaction.amount t
    else Double.counter_after s txs.
Proof.
  unfold Double.counter_after. rewrite filter_app, fold_left_app. simpl.
  destruct (Double.is_success t); reflexivity.
Qed.

Lemma double_admitted_snoc (cap : float) (txs : list Double.Transaction.t)
    (t : Double.Transaction.t) :
  forall s,
    Double.admitted cap s txs ->
    (Double.is_success t = true ->
     PrimFloat.leb (Double.Transaction.amount t) (cap - Double.counter_after s txs) = true) ->
    Double.admitted cap s (txs ++ [t]).
Proof.
  induction txs as [ | u txs IH ]; intros s Hadm Hgate; simpl in *.
  - destruct (Double.is_success t); [ split; auto | exact I ].
  - unfold Double.counter_after in *. simpl in Hgate.
    destruct (Double.is_success u); simpl in Hgate.
    + destruct Hadm as [Hu Hrest]. split; [ exact Hu | ]. now apply IH.
    + now apply IH.
Qed.

Lemma double_ledger_gated_executePayment endpoint amount method payload :
  Double.preserves Double.ledger_gated
    (Double.executePayment endpoint amount method payload).
Proof.
  intros w [Hadm Hcount]. unfold Double.ledger_gated in *.
  destruct (double_executePayment_paid endpoint amount method payload w)
    as [ Hgate | body t w1 Hgate Ha _ _ Hst _ Ham | error t w1 Hgate Ha _ _ Hst ]; simpl.
  - split; assumption.
  - rewrite Ha. split.
    + apply double_admitted_snoc; [ exact Hadm | ].
      intros _. rewrite Ham, <- Hcount. exact Hgate.
    + rewrite double_counter_after_snoc. unfold Double.is_success at 1.
      rewrite Hst, Ham. simpl. now rewrite Hcount.
  - rewrite Ha. split.
    + apply double_admitted_snoc; [ exact Hadm | ].
      unfold Double.is_success. rewrite Hst. discriminate.
    + rewrite double_counter_after_snoc. unfold Double.is_success at 1.
      rewrite Hst. simpl. exact Hcount.
Qed.

(** X25.  What the gate does guarantee, on binary64 numbers.  In every
    state an agent can reach, each successful entry of the ledger passed
    the gate when it was charged: its amount was at most the cap less the
    counter at that moment (the comparison the code makes), the counter
    having moved by one addition per earlier successful entry; and the
    counter is the result of these additions.  A call that fails the
    comparison is refused with the state unchanged. *)
Theorem double_ledger_entries_passed_gate (w : Double.World) :
  Double.reachable w ->
  Double.admitted (Double.maxDailySpend (Double.agent w)) 0
    (Double.transactions (Double.agent w))
  /\ Double.spendingToday (Double.agent w) =
       Double.counter_after 0 (Double.transactions (Double.agent w))
  /\ forall endpoint amount method payload,
       PrimFloat.leb amount
         (Double.maxDailySpend (Double.agent w) - Double.spendingToday (Double.agent w))
       = false ->
       Double.executePayment endpoint amount method payload w =
         (Double.Throw
            (Double.InsufficientBudget
               (Double.maxDailySpend (Double.agent w)
                - Double.spendingToday (Double.agent w))), w).
Proof.
  intros (config & net & clock & ops & ->).
  assert (H : Double.ledger_gated (Double.run ops (Double.boot config net clock))).
  { apply (double_preserves_run Double.ledger_gated).
    - apply double_ledger_gated_executePayment.
    - split; [ exact I | reflexivity ]. }
  destruct H as [Hadm Hcount].
  split; [ exact Hadm | split; [ exact Hcount | ] ].
  intros endpoint amount method payload Hgate.
  now apply double_executePayment_refused.
Qed.

Lemma double_ledger_entries_passed_gate_witness :
  let w := Double.run
             [Double.CallExecutePayment "/api/v1/data/a" 0.04 "GET" Double.NoData;
              Double.CallExecutePayment "/api/v1/data/b" 0.07 "GET" Double.NoData]
             (Double.boot (Double.config 0.11)
                (Double.script [Double.market "neutral" 0.3; Double.market "neutral" 0.3]) 0) in
  Double.reachable w
  /\ Double.admitted 0.11 0 (Double.transactions (Double.agent w))
  /\ Double.spendingToday (Double.agent w) = 0.11000000000000001.
Proof.
  assert (Hreach :
    Double.reachable
      (Double.run
         [Double.CallExecutePayment "/api/v1/data/a" 0.04 "GET" Double.NoData;
          Double.CallExecutePayment "/api/v1/data/b" 0.07 "GET" Double.NoData]
         (Double.boot (Double.config 0.11)
            (Double.script [Double.market "neutral" 0.3; Double.market "neutral" 0.3]) 0))).
  { exists (Double.config 0.11),
      (Double.script [Double.market "neutral" 0.3; Double.market "neutral" 0.3]),
      0%Z,
      [Double.CallExecutePayment "/api/v1/data/a" 0.04 "GET" Double.NoData;
       Double.CallExecutePayment "/api/v1/data/b" 0.07 "GET" Double.NoData].
    reflexivity. }
  split; [ exact Hreach | split ].
  - exact (proj1 (double_ledger_entries_passed_gate _ Hreach)).
  - vm_compute. reflexivity.
Defined.

(** ** Pre- and postconditions *)

Lemma double_hoare_ret {A} (P : Double.World -> Prop) (a : A)
    (Q : Double.Res A -> Double.World -> Prop) :
  (forall w, P w -> Q (Double.Ok a) w) -> Double.hoare P (Double.ret a) Q.
Proof. intros H w Hw. now apply H. Qed.

Lemma double_hoare_bind {A B} (P : Double.World -> Prop) (m : Double.M A)
    (k : A -> Double.M B) (R : A -> Double.World -> Prop)
    (Q : Double.Res B -> Double.World -> Prop) :
  Double.hoare P m
    (fun r w => match r with Double.Ok a => R a w | Double.Throw e => Q (Double.Throw e) w end) ->
  (forall a, Double.hoare (R a) (k a) Q) ->
  Double.hoare P (Double.bind m k) Q.
Proof.
  intros Hm Hk w Hw. unfold Double.bind. specialize (Hm w Hw).
  destruct (m w) as [[a | e] w']; simpl in *.
  - now apply Hk.
  - exact Hm.
Qed.

(** One paid call moves the counter by one addition, or not at all. *)
Lemma double_hoare_executePayment_spent s endpoint amount method payload :
  Double.hoare (Double.spent s) (Double.executePayment endpoint amount method payload)
    (fun r w =>
       match r with
       | Double.Ok _ => Double.spent (s + amount) w
       | Double.Throw _ => Double.spent s w
       end).
Proof.
  intros w Hw. unfold Double.spent in *.
  pose proof (double_executePayment_paid endpoint amount method payload w) as H.
  destruct (Double.executePayment endpoint amount method payload w) as [r w'].
  simpl in *.
  destruct H as [Hgate | body t w1 Hgate Ha _ _ _ _ _ | error t w1 Hgate Ha _ _ _];
    simpl; try rewrite Ha; now rewrite Hw.
Qed.

Lemma double_hoare_pay_then {B} s endpoint amount method payload
    (k : Double.Body -> Double.M B) (Q : Double.Res B -> Double.World -> Prop) :
  (forall e w, Double.spent s w -> Q (Double.Throw e) w) ->
  (forall body, Double.hoare (Double.spent (s + amount)) (k body) Q) ->
  Double.hoare (Double.spent s)
    (Double.bind (Double.executePayment endpoint amount method payload) k) Q.
Proof.
  intros Hthrow Hk.
  apply double_hoare_bind with (R := fun _ => Double.spent (s + amount)); [ | exact Hk ].
  intros w Hw.
  pose proof (double_hoare_executePayment_spent s endpoint amount method payload w Hw) as H.
  destruct (fst (Double.executePayment endpoint amount method payload w)); auto.
Qed.

Lemma double_hoare_defined_then {A B} (P : Double.World -> Prop) (x : option A)
    (prop : string) (k : A -> Double.M B) (Q : Double.Res B -> Double.World -> Prop) :
  (forall e w, P w -> Q (Double.Throw e) w) ->
  (forall a, x = Some a -> Double.hoare P (k a) Q) ->
  Double.hoare P (Double.bind (Double.defined x prop) k) Q.
Proof.
  intros Hthrow Hk w Hw. unfold Double.bind. destruct x as [a | ]; simpl.
  - now apply Hk.
  - now apply Hthrow.
Qed.

Lemma double_hoare_lift_then {A B} (P : Double.World -> Prop) (r : Double.Res A)
    (k : A -> Double.M B) (Q : Double.Res B -> Double.World -> Prop) :
  (forall e w, r = Double.Throw e -> P w -> Q (Double.Throw e) w) ->
  (forall a, r = Double.Ok a -> Double.hoare P (k a) Q) ->
  Double.hoare P (Double.bind (Double.lift r) k) Q.
Proof.
  intros Hthrow Hk w Hw. unfold Double.bind, Double.lift. destruct r as [a | e]; simpl.
  - now apply Hk.
  - now apply Hthrow.
Qed.

Lemma double_hoare_ret_then {A B} (P : Double.World -> Prop) (a : A)
    (k : A -> Double.M B) (Q : Double.Res B -> Double.World -> Prop) :
  Double.hoare P (k a) Q -> Double.hoare P (Double.bind (Double.ret a) k) Q.
Proof. intros Hk w Hw. unfold Double.bind, Double.ret. now apply Hk. Qed.

(** ** What the workflows report against what they charge *)

Ltac double_spent_now :=
  match goal with
  | H : Double.spent _ _ |- _ => unfold Double.spent in H; simpl; rewrite H; tauto
  end.

(** X9.  [smartAnalysis] reports the tiers it charged.  Whatever the
    client answers, a returned result is one of four: PASS with no
    [totalSpent], the counter one addition of 0.005 further; or
    [totalSpent] 0.005 + 0.02, 0.005 + 0.02 + 0.10 or 0.005 + 0.10, the
    counter further by the same costs added one after the other.  When
    the run raises, the counter holds the tiers charged before the raise.
    All sums are the code's binary64 additions, in the code's order. *)
Theorem double_smartAnalysis_reports_tiers_charged (symbol : string) (w : Double.World) :
  let s := Double.spendingToday (Double.agent w) in
  let s' := Double.spendingToday (Double.agent (snd (Double.smartAnalysis symbol w))) in
  match fst (Double.smartAnalysis symbol w) with
  | Double.Ok r =>
      (Double.Result.decision r = PASS
       /\ Double.Result.totalSpent r = None /\ s' = s + 0.005)
      \/ (Double.Result.decision r <> PASS
          /\ ((Double.Result.totalSpent r = Some (0.005 + 0.02) /\ s' = s + 0.005 + 0.02)
              \/ (Double.Result.totalSpent r = Some (0.005 + 0.02 + 0.10)
                  /\ s' = s + 0.005 + 0.02 + 0.10)
              \/ (Double.Result.totalSpent r = Some (0.005 + 0.10)
                  /\ s' = s + 0.005 + 0.10)))
  | Double.Throw _ =>
      s' = s \/ s' = s + 0.005 \/ s' = s + 0.005 + 0.02
      \/ s' = s + 0.005 + 0.02 + 0.10 \/ s' = s + 0.005 + 0.10
  end.
Proof.
  cbv zeta.
  assert (H : Double.hoare (Double.spent (Double.spendingToday (Double.agent w)))
                (Double.smartAnalysis symbol)
                (fun res w' =>
                   let s := Double.spendingToday (Double.agent w) in
                   let s' := Double.spendingToday (Double.agent w') in
                   match res with
                   | Double.Ok r =>
                       (Double.Result.decision r = PASS
                        /\ Double.Result.totalSpent r = None /\ s' = s + 0.005)
                       \/ (Double.Result.decision r <> PASS
                           /\ ((Double.Result.totalSpent r = Some (0.005 + 0.02)
                                /\ s' = s + 0.005 + 0.02)
                               \/ (Double.Result.totalSpent r = Some (0.005 + 0.02 + 0.10)
                                   /\ s' = s + 0.005 + 0.02 + 0.10)
                               \/ (Double.Result.totalSpent r = Some (0.005 + 0.10)
                                   /\ s' = s + 0.005 + 0.10)))
                   | Double.Throw _ =>
                       s' = s \/ s' = s + 0.005 \/ s' = s + 0.005 + 0.02
                       \/ s' = s + 0.005 + 0.02 + 0.10 \/ s' = s + 0.005 + 0.10
                   end)).
  { generalize (Double.spendingToday (Double.agent w)) as s. intros s.
    unfold Double.smartAnalysis. cbv zeta.
    apply double_hoare_pay_then; [ intros; double_spent_now | intros marketData ].
    apply double_hoare_defined_then; [ intros; double_spent_now | intros sig Hsig ].
    destruct (PrimFloat.ltb (Double.strength sig) 0.5).
    { apply double_hoare_ret. intros w1 H1. unfold Double.spent in H1. simpl.
      left. now rewrite H1. }
    destruct (PrimFloat.ltb (Double.strength sig) 0.8).
    - unfold Double.getMarketNews. apply double_hoare_ret_then.
      apply double_hoare_pay_then; [ intros; double_spent_now | intros sentiment ].
      destruct (strict_eq (Double.data_sentiment sentiment) (Double.trend sig)).
      + apply double_hoare_pay_then; [ intros; double_spent_now | intros prediction ].
        apply double_hoare_lift_then; [ intros; double_spent_now | intros decision Hd ].
        apply double_hoare_ret. intros w1 H1. unfold Double.spent in H1.
        right. split.
        * simpl. destruct (double_makeDecision_range _ _ _ _ Hd) as [-> | [-> | ->]];
            discriminate.
        * right. left. split; [ reflexivity | exact H1 ].
      + apply double_hoare_ret. intros w1 H1. unfold Double.spent in H1.
        right. split; [ discriminate | ]. left. split; [ reflexivity | exact H1 ].
    - apply double_hoare_pay_then; [ intros; double_spent_now | intros prediction ].
      apply double_hoare_lift_then; [ intros; double_spent_now | intros decision Hd ].
      apply double_hoare_ret. intros w1 H1. unfold Double.spent in H1.
      right. split.
      + simpl. destruct (double_makeDecision_range _ _ _ _ Hd) as [-> | [-> | ->]];
          discriminate.
      + right. right. split; [ reflexivity | exact H1 ]. }
  exact (H w eq_refl).
Qed.

(** X10.  What [analyzeMarketAndDecide] reports against what it charged.
    A returned result either reports 0.005 with decision HOLD, the
    counter one or two additions further (the signal, or the signal and
    then the sentiment analysis, which the report leaves out); or it
    reports 0.005 + 0.02 + 0.10, the counter further by these three costs
    added one after the other.  So a decision other than HOLD reports
    every tier charged.  When the run raises, the counter holds the tiers
    charged before the raise.  All sums are the code's binary64
    additions, in the code's order. *)
Theorem double_analyzeMarketAndDecide_reported_tiers (symbol : string) (w : Double.World) :
  let s := Double.spendingToday (Double.agent w) in
  let s' :=
    Double.spendingToday (Double.agent (snd (Double.analyzeMarketAndDecide symbol w))) in
  match fst (Double.analyzeMarketAndDecide symbol w) with
  | Double.Ok r =>
      (Double.Result.decision r = HOLD
       /\ Double.Result.totalSpent r = Some 0.005
       /\ (s' = s + 0.005 \/ s' = s + 0.005 + 0.02))
      \/ (Double.Result.totalSpent r = Some (0.005 + 0.02 + 0.10)
          /\ s' = s + 0.005 + 0.02 + 0.10)
  | Double.Throw _ =>
      s' = s \/ s' = s + 0.005 \/ s' = s + 0.005 + 0.02
      \/ s' = s + 0.005 + 0.02 + 0.10
  end.
Proof.
  cbv zeta.
  assert (H : Double.hoare (Double.spent (Double.spendingToday (Double.agent w)))
                (Double.analyzeMarketAndDecide symbol)
                (fun res w' =>
                   let s := Double.spendingToday (Double.agent w) in
                   let s' := Double.spendingToday (Double.agent w') in
                   match res with
                   | Double.Ok r =>
                       (Double.Result.decision r = HOLD
                        /\ Double.Result.totalSpent r = Some 0.005
                        /\ (s' = s + 0.005 \/ s' = s + 0.005 + 0.02))
                       \/ (Double.Result.totalSpent r = Some (0.005 + 0.02 + 0.10)
                           /\ s' = s + 0.005 + 0.02 + 0.10)
                   | Double.Throw _ =>
                       s' = s \/ s' = s + 0.005 \/ s' = s + 0.005 + 0.02
                       \/ s' = s + 0.005 + 0.02 + 0.10
                   end)).
  { generalize (Double.spendingToday (Double.agent w)) as s. intros s.
    unfold Double.analyzeMarketAndDecide.
    apply double_hoare_pay_then; [ intros; double_spent_now | intros marketData ].
    apply double_hoare_defined_then; [ intros; double_spent_now | intros sig Hsig ].
    destruct (PrimFloat.ltb 0.7 (Double.strength sig)).
    - unfold Double.getMarketNews. apply double_hoare_ret_then.
      apply double_hoare_pay_then; [ intros; double_spent_now | intros sentiment ].
      destruct (strict_eq (Double.data_sentiment sentiment) "positive"
                && String.eqb (Double.trend sig) "bullish").
      + apply double_hoare_pay_then; [ intros; double_spent_now | intros prediction ].
        apply double_hoare_defined_then; [ intros; double_spent_now | intros change Hchange ].
        apply double_hoare_defined_then; [ intros; double_spent_now | intros meta Hmeta ].
        apply double_hoare_lift_then; [ intros; double_spent_now | intros decision Hd ].
        apply double_hoare_ret. intros w1 H1. unfold Double.spent in H1.
        right. split; [ reflexivity | exact H1 ].
      + apply double_hoare_ret. intros w1 H1. unfold Double.spent in H1.
        left. repeat split. now right.
    - apply double_hoare_ret. intros w1 H1. unfold Double.spent in H1.
      left. repeat split. now left. }
  exact (H w eq_refl).
Qed.

(** ** Runs with every call answered *)

(** X17.  A symbol the batch escalates pays for its market signal twice:
    when the first signal is stronger than 0.8 and the budget gate admits
    a second signal call after the first was charged,
    [analyzeMarketAndDecide] repeats the same market-intelligence request,
    so the client log continues with that request twice. *)
Theorem double_batch_try_fetches_signal_twice symbol (w : Double.World)
    body rid elapsed sig :
  Double.canAfford (Double.agent w) 0.005 = true ->
  Double.net w (List.length (Double.calls w)) = Double.Respond body rid elapsed ->
  Double.data_signals body = Some sig ->
  PrimFloat.ltb 0.8 (Double.strength sig) = true ->
  PrimFloat.leb 0.005
    (Double.maxDailySpend (Double.agent w)
     - (Double.spendingToday (Double.agent w) + 0.005)) = true ->
  exists more,
    Double.calls (snd (Double.batch_try symbol w)) =
      Double.calls w
      ++ [Double.Get (Double.baseUrl (Double.agent w) ++ market_intelligence symbol);
          Double.Get (Double.baseUrl (Double.agent w) ++ market_intelligence symbol)]
      ++ more.
Proof.
  intros Hb1 Hnet Hsig Hs Hb2.
  destruct (Double.batch_try symbol w) as [r w'] eqn:Hrun.
  unfold Double.batch_try in Hrun. double_signal_step Hrun Hb1 Hnet Hsig.
  rewrite Hs in Hrun.
  unfold Double.analyzeMarketAndDecide in Hrun. unfold Double.bind at 1 in Hrun.
  match type of Hrun with
  | context [Double.executePayment ?e ?a ?m ?p ?w1] =>
      pose proof (proj1 (double_executePayment_calls e a m p w1 Hb2) eq_refl) as Hcalls;
      destruct (Double.executePayment e a m p w1) as [r2 w2]
  end.
  simpl in Hcalls. rewrite <- app_assoc in Hcalls. simpl in Hcalls.
  destruct r2 as [marketData | e].
  2: { injection Hrun as <- <-. exists []. simpl. exact Hcalls. }
  assert (Hext : Double.extends (Double.calls w2) w').
  { replace w' with (snd (r, w')) by reflexivity. rewrite <- Hrun.
    match goal with
    | |- Double.extends _ (snd (?k w2)) =>
        assert (Hk : Double.preserves (Double.extends (Double.calls w2)) k)
          by (unfold Double.getMarketNews;
              double_carry (double_extends_executePayment (Double.calls w2)))
    end.
    apply Hk. exists []. now rewrite app_nil_r. }
  destruct Hext as [more Hmore]. exists more. simpl.
  rewrite Hmore, Hcalls, <- app_assoc. reflexivity.
Qed.

Lemma double_batch_try_fetches_signal_twice_witness :
  let w := Double.boot (Double.config 5)
             (Double.script [Double.market "bullish" 0.9; Double.market "bullish" 0.6]) 0 in
  exists more,
    Double.calls (snd (Double.batch_try "ETH" w)) =
      [Double.Get "http://localhost:3000/api/v1/data/market-intelligence?symbol=ETH";
       Double.Get "http://localhost:3000/api/v1/data/market-intelligence?symbol=ETH"] ++ more.
Proof.
  intros w.
  exact (double_batch_try_fetches_signal_twice "ETH" w
           {| Double.data := Double.Market 100 5 (Double.mkSignals "bullish" 0.9 0.1);
              Double._meta := None |}
           None 10 (Double.mkSignals "bullish" 0.9 0.1)
           eq_refl eq_refl eq_refl eq_refl eq_refl).
Defined.

(** X18.  Medium band, sentiment answered.  Let the signal be paid and be
    neither below 0.5 nor at or above 0.8, let the budget gate admit the
    sentiment call after the signal was charged, and let the sentiment
    label differ from the trend label.  Then [smartAnalysis] returns HOLD
    reporting 0.005 + 0.02, having made exactly the signal and the
    sentiment call (two transactions); the counter has had 0.005 and then
    0.02 added; the prediction is not called. *)
Theorem double_smartAnalysis_medium_unconfirmed symbol (w : Double.World)
    body rid elapsed sig sbody srid selapsed :
  Double.canAfford (Double.agent w) 0.005 = true ->
  Double.net w (List.length (Double.calls w)) = Double.Respond body rid elapsed ->
  Double.data_signals body = Some sig ->
  PrimFloat.ltb (Double.strength sig) 0.5 = false ->
  PrimFloat.ltb (Double.strength sig) 0.8 = true ->
  PrimFloat.leb 0.02
    (Double.maxDailySpend (Double.agent w)
     - (Double.spendingToday (Double.agent w) + 0.005)) = true ->
  Double.net w (S (List.length (Double.calls w))) = Double.Respond sbody srid selapsed ->
  strict_eq (Double.data_sentiment sbody) (Double.trend sig) = false ->
  let w' := snd (Double.smartAnalysis symbol w) in
  (exists r,
     fst (Double.smartAnalysis symbol w) = Double.Ok r
     /\ Double.Result.decision r = HOLD
     /\ Double.Result.totalSpent r = Some (0.005 + 0.02))
  /\ (exists text,
        Double.calls w' =
          Double.calls w
          ++ [Double.Get (Double.baseUrl (Double.agent w) ++ market_intelligence symbol);
              Double.Post
                (Double.baseUrl (Double.agent w) ++ "/api/v1/models/sentiment-analysis")
                (Double.TextData text)])
  /\ List.length (Double.transactions (Double.agent w'))
     = (List.length (Double.transactions (Double.agent w)) + 2)%nat
  /\ Double.spendingToday (Double.agent w')
     = Double.spendingToday (Double.agent w) + 0.005 + 0.02.
Proof.
  intros Hb1 Hnet Hsig H5 H8 Hb2 Hnet2 Hno.
  destruct (Double.smartAnalysis symbol w) as [r w'] eqn:Hrun.
  unfold Double.smartAnalysis in Hrun. double_signal_step Hrun Hb1 Hnet Hsig.
  rewrite H5, H8 in Hrun.
  unfold Double.bind at 1, Double.getMarketNews at 1, Double.ret at 1 in Hrun.
  unfold Double.bind at 1 in Hrun.
  rewrite (double_executePayment_POST_responded _ _ _ _ sbody srid selapsed) in Hrun;
    [ | exact Hb2 | now rewrite double_served_next ].
  rewrite Hno in Hrun. unfold Double.ret in Hrun.
  injection Hrun as <- <-. simpl.
  split; [ eexists; repeat split | ].
  split; [ eexists; rewrite <- app_assoc; reflexivity | ].
  split; [ repeat rewrite length_app; simpl; lia | reflexivity ].
Qed.

Lemma double_smartAnalysis_medium_unconfirmed_witness :
  let w := Double.boot (Double.config 5)
             (Double.script
                [Double.market "bullish" 0.6; Double.sentiment_answer "positive"]) 0 in
  (exists r,
     fst (Double.smartAnalysis "BNB" w) = Double.Ok r
     /\ Double.Result.decision r = HOLD
     /\ Double.Result.totalSpent r = Some (0.005 + 0.02))
  /\ Double.spendingToday (Double.agent (snd (Double.smartAnalysis "BNB" w))) = 0.025.
Proof.
  intros w.
  pose proof (double_smartAnalysis_medium_unconfirmed "BNB" w
                {| Double.data := Double.Market 100 5 (Double.mkSignals "bullish" 0.6 0.1);
                   Double._meta := None |}
                None 10 (Double.mkSignals "bullish" 0.6 0.1)
                {| Double.data := Double.Sentiment "positive" 0.9; Double._meta := None |}
                None 20
                eq_refl eq_refl eq_refl eq_refl eq_refl eq_refl eq_refl eq_refl)
    as (Hr & _ & _ & Hspent).
  split; [ exact Hr | ].
  rewrite Hspent. reflexivity.
Defined.

(** X24.  Strong band with both calls answered.  Let the signal be paid
    and be neither below 0.5 nor below 0.8, and let the budget gate admit
    the prediction call after the signal was charged.  Then
    [smartAnalysis] pays both tiers (two transactions, the counter has had
    0.005 and then 0.10 added), and its decision step raises exactly when
    the prediction has change > 5 and confidence > 0.7; otherwise it
    returns SELL (change < -5 and confidence > 0.7) or HOLD with
    [totalSpent] 0.005 + 0.10. *)
Theorem double_smartAnalysis_strong_band_outcome symbol (w : Double.World)
    body rid elapsed sig pbody prid pelapsed current predicted change meta c :
  Double.canAfford (Double.agent w) 0.005 = true ->
  Double.net w (List.length (Double.calls w)) = Double.Respond body rid elapsed ->
  Double.data_signals body = Some sig ->
  PrimFloat.ltb (Double.strength sig) 0.5 = false ->
  PrimFloat.ltb (Double.strength sig) 0.8 = false ->
  PrimFloat.leb 0.10
    (Double.maxDailySpend (Double.agent w)
     - (Double.spendingToday (Double.agent w) + 0.005)) = true ->
  Double.net w (S (List.length (Double.calls w))) = Double.Respond pbody prid pelapsed ->
  Double.data pbody = Double.Prediction current predicted change ->
  Double._meta pbody = Some meta ->
  Double.confidence meta = Some c ->
  let w' := snd (Double.smartAnalysis symbol w) in
  fst (Double.smartAnalysis symbol w) =
    (if PrimFloat.ltb 5 change && PrimFloat.ltb 0.7 c then
       Double.Throw (Double.TypeError "Cannot read properties of null (reading 'data')")
     else
       Double.Ok
         {| Double.Result.symbol := None;
            Double.Result.decision :=
              if PrimFloat.ltb change (-5) && PrimFloat.ltb 0.7 c then SELL else HOLD;
            Double.Result.reason := None;
            Double.Result.confidence := None;
            Double.Result.totalSpent := Some (0.005 + 0.10);
            Double.Result.analysis := None;
            Double.Result.error := None |})
  /\ Double.spendingToday (Double.agent w')
     = Double.spendingToday (Double.agent w) + 0.005 + 0.10
  /\ List.length (Double.transactions (Double.agent w'))
     = (List.length (Double.transactions (Double.agent w)) + 2)%nat.
Proof.
  intros Hb1 Hnet Hsig H5 H8 Hb2 Hnet2 Hdata Hmeta Hc.
  destruct (Double.smartAnalysis symbol w) as [r w'] eqn:Hrun.
  unfold Double.smartAnalysis in Hrun. double_signal_step Hrun Hb1 Hnet Hsig.
  rewrite H5, H8 in Hrun.
  unfold Double.bind at 1 in Hrun.
  rewrite (double_executePayment_POST_responded _ _ _ _ pbody prid pelapsed) in Hrun;
    [ | exact Hb2 | now rewrite double_served_next ].
  unfold Double.bind, Double.lift, Double.ret in Hrun.
  unfold Double.makeDecision, Double.data_change in Hrun.
  rewrite Hmeta, Hdata, Hc in Hrun.
  simpl Double.gt in Hrun. simpl Double.lt in Hrun.
  simpl.
  destruct (PrimFloat.ltb 5 change && PrimFloat.ltb 0.7 c);
    [ | destruct (PrimFloat.ltb change (-5) && PrimFloat.ltb 0.7 c) ];
    injection Hrun as <- <-; simpl;
    (split; [ reflexivity
            | split; [ reflexivity | repeat rewrite length_app; simpl; lia ] ]).
Qed.

Lemma double_smartAnalysis_strong_band_outcome_witness :
  let w := Double.boot (Double.config 5)
             (Double.script
                [Double.market "bearish" 0.9; Double.prediction_answer (-6) 0.9]) 0 in
  (exists r, fst (Double.smartAnalysis "BNB" w) = Double.Ok r
             /\ Double.Result.decision r = SELL)
  /\ Double.spendingToday (Double.agent (snd (Double.smartAnalysis "BNB" w)))
     = 0.10500000000000001.
Proof.
  intros w.
  pose proof (double_smartAnalysis_strong_band_outcome "BNB" w
                {| Double.data := Double.Market 100 5 (Double.mkSignals "bearish" 0.9 0.1);
                   Double._meta := None |}
                None 10 (Double.mkSignals "bearish" 0.9 0.1)
                {| Double.data := Double.Prediction 100 110 (-6);
                   Double._meta :=
                     Some {| Double.confidence := Some 0.9; Double.total := None |} |}
                None 30 100 110 (-6)
                {| Double.confidence := Some 0.9; Double.total := None |} 0.9
                eq_refl eq_refl eq_refl eq_refl eq_refl eq_refl eq_refl eq_refl eq_refl
                eq_refl)
    as (Hr & Hspent & _).
  split.
  - eexists. split; [ exact Hr | reflexivity ].
  - rewrite Hspent. reflexivity.
Defined.
